(** * URL shortener: a shallow embedding of [main.py] and its properties

    The service keeps two SQLite tables, [urls] and [analytics], and serves
    six routes on top of them.  Each route opens a connection, runs a few
    statements through a cursor, commits (or raises first) and closes the
    connection.  The embedding below follows that shape: tables are lists of
    rows in rowid order, a connection carries the committed database and the
    working copy a cursor writes to, and a route is a computation in a small
    state-and-exception monad run by [get_db_connection]. *)

From Stdlib Require Import ZArith List Bool Ascii String Lia.
From Stdlib Require Import Sorting.Sorted Sorting.Permutation.
Import ListNotations.

Local Open Scope string_scope.
Local Open Scope list_scope.
Local Open Scope Z_scope.

(** ** Timestamps

    SQLite's [CURRENT_TIMESTAMP] and ['now'] are read off the UTC clock with a
    resolution of one second and stored as the text [YYYY-MM-DD HH:MM:SS];
    Python's [datetime.now()] is a naive local datetime with microseconds.
    Both are counted from 0001-01-01T00:00:00 of their own clock: an SQLite
    timestamp is a number of seconds, a Python datetime a number of
    microseconds.  A calendar date is a number of days from the same origin,
    so that two ISO date texts are equal (ordered) exactly when their day
    numbers are. *)

Definition seconds_per_day : Z := 86400.
Definition microseconds_per_day : Z := 86400 * 1000000.

(** [datetime.max] is 9999-12-31T23:59:59.999999, the last microsecond of day
    3652059 (its ordinal), so a datetime [t] satisfies [0 <= t < datetime_end]. *)
Definition datetime_end : Z := 3652059 * microseconds_per_day.

(** [timedelta.max.days] *)
Definition timedelta_max_days : Z := 999999999.

(** What the two clocks show while one request is served; a request is
    short, so each clock is read as a single instant per request. *)
Record clock := {
  sqlite_now : Z;     (* CURRENT_TIMESTAMP, seconds, UTC *)
  datetime_now : Z    (* datetime.datetime.now(), microseconds, local *)
}.

(** SQLite's [DATE(ts)]: the calendar date of a stored timestamp. *)
Definition DATE (ts : Z) : Z := ts / seconds_per_day.

(** SQLite's [date('now', '<n> days')]. *)
Definition date_now_plus_days (clk : clock) (n : Z) : Z := DATE (sqlite_now clk) + n.

(** [datetime.date.today()] *)
Definition date_today (clk : clock) : Z := datetime_now clk / microseconds_per_day.

(** The comparison [clicked_at >= date(...)] is a comparison of texts: a
    timestamp [YYYY-MM-DD HH:MM:SS] against a date [YYYY-MM-DD].  The date is
    a proper prefix of the timestamp of any instant of that day, so the
    timestamp is the greater text exactly from that day's midnight on. *)
Definition timestamp_ge_date (ts d : Z) : bool := d * seconds_per_day <=? ts.

(** The two textual forms a [created_at] takes in a response. *)
Inductive time_text :=
| SqlTimestamp (seconds : Z)        (* a value read back from the table *)
| IsoFormat (microseconds : Z).     (* datetime.now().isoformat() *)

(** ** Tables *)

Module Urls.
Record row := {
  id : Z;
  original_url : string;
  short_code : string;
  created_at : Z;
  clicks : Z;
  is_active : bool;
  expires_at : option Z
}.
End Urls.

Module Analytics.
Record row := {
  id : Z;
  short_code : string;
  ip_address : string;
  user_agent : string;
  referrer : string;
  clicked_at : Z
}.
End Analytics.

(** Rows are kept in rowid order; the two counters are the AUTOINCREMENT
    sequences of the tables. *)
Record database := {
  urls : list Urls.row;
  urls_seq : Z;
  analytics : list Analytics.row;
  analytics_seq : Z
}.

(** ** Request and response models *)

Module URLCreate.
Record t := {
  original_url : string;
  custom_code : option string;
  expires_in_days : option Z
}.
End URLCreate.

Module URLResponse.
Record t := {
  id : Z;
  original_url : string;
  short_code : string;
  short_url : string;
  created_at : time_text;
  clicks : Z;
  qr_code : string
}.
End URLResponse.

Module AnalyticsResponse.
Record t := {
  total_links : Z;
  total_clicks : Z;
  today_clicks : Z;
  click_data : list (Z * Z)      (* {"date": ..., "clicks": ...} *)
}.
End AnalyticsResponse.

(** Starlette's [RedirectResponse]: of the [url] it is built from it keeps
    the percent-encoded form only, as its [location] header. *)
Record RedirectResponse := { location : string; status_code : Z }.

(** What [redirect_url] reads of the incoming request. *)
Record Request := {
  x_forwarded_for : option string;
  client_host : string;
  header_user_agent : option string;
  header_referer : option string
}.

(** One entry of the [clicks] list of [get_url_analytics]. *)
Record click_info := {
  ci_ip_address : string;
  ci_user_agent : string;
  ci_referrer : string;
  ci_clicked_at : Z
}.

Record url_info := {
  ui_original_url : string;
  ui_short_code : string;
  ui_created_at : Z;
  ui_total_clicks : Z
}.

Record link_info := {
  li_id : Z;
  li_original_url : string;
  li_short_code : string;
  li_short_url : string;
  li_created_at : Z;
  li_clicks : Z
}.

(** What [urlparse] yields, as far as [is_valid_url] looks at it. *)
Record ParseResult := { scheme : string; netloc : string }.

(** ** Exceptions and outcomes *)

Inductive exn :=
| HTTPException (status : Z) (detail : string)
| OverflowError
| IntegrityError.

(** A route returns, raises, or (the code-generation loop) never comes back. *)
Inductive outcome (A : Type) :=
| Return (a : A)
| Raise (e : exn)
| Diverge.
Arguments Return {A} a.
Arguments Raise {A} e.
Arguments Diverge {A}.

(** ** Connections

    A cursor writes to the working copy; [commit] makes it the committed
    database; closing the connection drops whatever was not committed. *)

Record connection := { committed : database; working : database }.

Definition Conn (A : Type) : Type := connection -> outcome A * connection.

Definition ret {A} (a : A) : Conn A := fun c => (Return a, c).

Definition raise {A} (e : exn) : Conn A := fun c => (Raise e, c).

Definition bind {A B} (m : Conn A) (k : A -> Conn B) : Conn B :=
  fun c =>
    match m c with
    | (Return a, c') => k a c'
    | (Raise e, c') => (Raise e, c')
    | (Diverge, c') => (Diverge, c')
    end.

Notation "x <- m ;; k" := (bind m (fun x => k))
  (at level 61, m at next level, right associativity).
Notation "m ;;; k" := (bind m (fun _ => k))
  (at level 61, right associativity).

(** A computation that touches no table (it may still raise). *)
Definition lift {A} (o : outcome A) : Conn A := fun c => (o, c).

Definition commit : Conn unit :=
  fun c => (Return tt, {| committed := working c; working := working c |}).

(** [with get_db_connection() as conn: ...]: connect, run the body, close. *)
Definition get_db_connection {A} (body : Conn A) (db : database)
  : outcome A * database :=
  let (r, c) := body {| committed := db; working := db |} in
  (r, committed c).

(** ** Statements *)

(** [SELECT ... FROM urls WHERE p]: the matching rows, in rowid order. *)
Definition select_urls (p : Urls.row -> bool) : Conn (list Urls.row) :=
  fun c => (Return (filter p (urls (working c))), c).

Definition select_analytics (p : Analytics.row -> bool)
  : Conn (list Analytics.row) :=
  fun c => (Return (filter p (analytics (working c))), c).

(** [cursor.fetchone()] *)
Definition fetchone {A} (rows : list A) : option A := hd_error rows.

(** [INSERT INTO urls (original_url, short_code, expires_at)]: the other
    columns take their defaults; the UNIQUE constraint on [short_code] is
    checked by the store.  Returns [cursor.lastrowid]. *)
Definition insert_url (clk : clock) (original_url short_code : string)
    (expires_at : option Z) : Conn Z :=
  fun c =>
    let db := working c in
    if existsb (fun r => String.eqb (Urls.short_code r) short_code) (urls db)
    then (Raise IntegrityError, c)
    else
      let rowid := urls_seq db + 1 in
      let r := {| Urls.id := rowid;
                  Urls.original_url := original_url;
                  Urls.short_code := short_code;
                  Urls.created_at := sqlite_now clk;
                  Urls.clicks := 0;
                  Urls.is_active := true;
                  Urls.expires_at := expires_at |} in
      (Return rowid,
       {| committed := committed c;
          working := {| urls := urls db ++ [r];
                        urls_seq := rowid;
                        analytics := analytics db;
                        analytics_seq := analytics_seq db |} |}).

(** [INSERT INTO analytics (short_code, ip_address, user_agent, referrer)] *)
Definition insert_analytics (clk : clock)
    (short_code ip_address user_agent referrer : string) : Conn unit :=
  fun c =>
    let db := working c in
    let rowid := analytics_seq db + 1 in
    let r := {| Analytics.id := rowid;
                Analytics.short_code := short_code;
                Analytics.ip_address := ip_address;
                Analytics.user_agent := user_agent;
                Analytics.referrer := referrer;
                Analytics.clicked_at := sqlite_now clk |} in
    (Return tt,
     {| committed := committed c;
        working := {| urls := urls db;
                      urls_seq := urls_seq db;
                      analytics := analytics db ++ [r];
                      analytics_seq := rowid |} |}).

(** [UPDATE urls SET ... WHERE p]: returns [cursor.rowcount], the number of
    rows the WHERE clause matched (whether or not a value changed). *)
Definition update_urls (p : Urls.row -> bool) (set : Urls.row -> Urls.row)
  : Conn Z :=
  fun c =>
    let db := working c in
    (Return (Z.of_nat (List.length (filter p (urls db)))),
     {| committed := committed c;
        working := {| urls := map (fun r => if p r then set r else r) (urls db);
                      urls_seq := urls_seq db;
                      analytics := analytics db;
                      analytics_seq := analytics_seq db |} |}).

Definition set_clicks_plus_1 (r : Urls.row) : Urls.row :=
  {| Urls.id := Urls.id r;
     Urls.original_url := Urls.original_url r;
     Urls.short_code := Urls.short_code r;
     Urls.created_at := Urls.created_at r;
     Urls.clicks := Urls.clicks r + 1;
     Urls.is_active := Urls.is_active r;
     Urls.expires_at := Urls.expires_at r |}.

Definition set_is_active_0 (r : Urls.row) : Urls.row :=
  {| Urls.id := Urls.id r;
     Urls.original_url := Urls.original_url r;
     Urls.short_code := Urls.short_code r;
     Urls.created_at := Urls.created_at r;
     Urls.clicks := Urls.clicks r;
     Urls.is_active := false;
     Urls.expires_at := Urls.expires_at r |}.

(** The WHERE clauses of the routes. *)
Definition url_is_active (original_url : string) (r : Urls.row) : bool :=
  String.eqb (Urls.original_url r) original_url && Urls.is_active r.

Definition code_is (short_code : string) (r : Urls.row) : bool :=
  String.eqb (Urls.short_code r) short_code.

Definition code_is_active (short_code : string) (r : Urls.row) : bool :=
  String.eqb (Urls.short_code r) short_code && Urls.is_active r.

Definition click_of (short_code : string) (a : Analytics.row) : bool :=
  String.eqb (Analytics.short_code a) short_code.

(** ** ORDER BY and GROUP BY

    [ORDER BY key DESC] as a stable insertion sort: rows with equal keys stay
    in rowid order. *)
Fixpoint insert_desc {A} (key : A -> Z) (x : A) (l : list A) : list A :=
  match l with
  | [] => [x]
  | y :: l' => if key y <=? key x then x :: l else y :: insert_desc key x l'
  end.

Definition order_by_desc {A} (key : A -> Z) (l : list A) : list A :=
  fold_right (insert_desc key) [] l.

(** [GROUP BY d ORDER BY d] with [COUNT( * )]: one entry per distinct value,
    ascending, with the number of rows that carry it. *)
Fixpoint count_into (d : Z) (groups : list (Z * Z)) : list (Z * Z) :=
  match groups with
  | [] => [(d, 1)]
  | (d', n) :: rest =>
      if d <? d' then (d, 1) :: groups
      else if d =? d' then (d', n + 1) :: rest
      else (d', n) :: count_into d rest
  end.

Definition group_count (ds : list Z) : list (Z * Z) :=
  fold_left (fun groups d => count_into d groups) ds [].

(** ** Python values *)

(** Truthiness of an [Optional[str]] and of an [Optional[int]]: [None], the
    empty string and [0] are false. *)
Definition truthy_str (s : option string) : bool :=
  match s with
  | None => false
  | Some EmptyString => false
  | Some (String _ _) => true
  end.

Definition truthy_int (n : option Z) : bool :=
  match n with
  | None => false
  | Some k => negb (k =? 0)
  end.

(** [string.ascii_letters + string.digits] *)
Definition ascii_letters : string :=
  "abcdefghijklmnopqrstuvwxyzABCDEFGHIJKLMNOPQRSTUVWXYZ".
Definition digits : string := "0123456789".
Definition characters : string := String.append ascii_letters digits.

(** [random.choice(seq)] picks [seq[k]] for a [k] below [len(seq)] drawn from
    the generator; [draw] is what the generator hands out. *)
Definition random_choice (seq : string) (draw : nat) : ascii :=
  nth (Nat.modulo draw (String.length seq)) (list_ascii_of_string seq) "a"%char.

(** [datetime.timedelta(days=n)] *)
Definition timedelta_days (n : Z) : outcome Z :=
  if Z.abs n <=? timedelta_max_days
  then Return (n * microseconds_per_day)
  else Raise OverflowError.

(** [datetime + timedelta] *)
Definition datetime_add (t delta : Z) : outcome Z :=
  let r := t + delta in
  if (0 <=? r) && (r <? datetime_end) then Return r else Raise OverflowError.

(** [s.split(",")[0]] *)
Fixpoint before_comma (s : string) : string :=
  match s with
  | EmptyString => EmptyString
  | String c s' => if Ascii.eqb c ","%char then EmptyString
                   else String c (before_comma s')
  end.

(** The characters [str.strip()] removes.  A header value is decoded as
    latin-1, one character per byte, so its characters are the code points
    0 to 255; of these [str.isspace()] holds for 9 to 13, 28 to 32, 133
    (next line) and 160 (no-break space). *)
Definition is_space (c : ascii) : bool :=
  let n := nat_of_ascii c in
  ((9 <=? n) && (n <=? 13) || (28 <=? n) && (n <=? 32)
   || (n =? 133) || (n =? 160))%nat.

Fixpoint lstrip (s : string) : string :=
  match s with
  | EmptyString => EmptyString
  | String c s' => if is_space c then lstrip s' else s
  end.

Fixpoint rstrip (s : string) : string :=
  match s with
  | EmptyString => EmptyString
  | String c s' =>
      match rstrip s' with
      | EmptyString => if is_space c then EmptyString else String c EmptyString
      | t => String c t
      end
  end.

Definition strip (s : string) : string := rstrip (lstrip s).

(** ** Utility functions *)

(** [generate_short_code(length)]: [length] draws, the [pos]-th draw onwards. *)
Fixpoint generate_short_code (length : nat) (rand : nat -> nat) (pos : nat)
  : string :=
  match length with
  | O => EmptyString
  | S n => String (random_choice characters (rand pos))
                  (generate_short_code n rand (S pos))
  end.

Definition get_client_ip (request : Request) : string :=
  if truthy_str (x_forwarded_for request)
  then match x_forwarded_for request with
       | Some forwarded => strip (before_comma forwarded)
       | None => client_host request
       end
  else client_host request.

(** [request.headers.get(name, "")] *)
Definition header_or_empty (h : option string) : string :=
  match h with Some v => v | None => EmptyString end.

(** The loop of [shorten_url] that draws codes until one is unused.  It has no
    bound in the source; [fuel] bounds the number of rounds and running out of
    it stands for a loop that does not end. *)
Fixpoint generate_unused_code (fuel : nat) (rand : nat -> nat) (pos : nat)
  : Conn string :=
  match fuel with
  | O => lift Diverge
  | S fuel' =>
      let short_code := generate_short_code 6 rand pos in
      rows <- select_urls (code_is short_code) ;;
      match fetchone rows with
      | None => ret short_code
      | Some _ => generate_unused_code fuel' rand (pos + 6)%nat
      end
  end.

(** ** A reference parser and sample data

    [urlparse] belongs to Python's library, not to the service, and the
    properties below hold for any parser.  [urlsplit_basic] follows the way
    [urllib.parse.urlsplit] picks the scheme and the network location; it
    instantiates the properties on concrete requests. *)

Definition is_alpha (c : ascii) : bool :=
  let n := nat_of_ascii c in
  ((65 <=? n) && (n <=? 90) || (97 <=? n) && (n <=? 122))%nat.

Definition is_digit (c : ascii) : bool :=
  let n := nat_of_ascii c in ((48 <=? n) && (n <=? 57))%nat.

Definition is_scheme_char (c : ascii) : bool :=
  is_alpha c || is_digit c
  || Ascii.eqb c "+"%char || Ascii.eqb c "-"%char || Ascii.eqb c "."%char.

Definition to_lower (c : ascii) : ascii :=
  let n := nat_of_ascii c in
  if ((65 <=? n) && (n <=? 90))%nat then ascii_of_nat (n + 32) else c.

Fixpoint string_forallb (p : ascii -> bool) (s : string) : bool :=
  match s with
  | EmptyString => true
  | String c s' => p c && string_forallb p s'
  end.

Fixpoint string_map (f : ascii -> ascii) (s : string) : string :=
  match s with
  | EmptyString => EmptyString
  | String c s' => String (f c) (string_map f s')
  end.

(** [url.find(':')] as the text before and after the first colon. *)
Fixpoint split_colon (s : string) : option (string * string) :=
  match s with
  | EmptyString => None
  | String c s' =>
      if Ascii.eqb c ":"%char then Some (EmptyString, s')
      else match split_colon s' with
           | Some (pre, post) => Some (String c pre, post)
           | None => None
           end
  end.

(** The network location ends at the first of [/], [?] and [#]. *)
Fixpoint take_netloc (s : string) : string :=
  match s with
  | EmptyString => EmptyString
  | String c s' =>
      if Ascii.eqb c "/"%char || Ascii.eqb c "?"%char || Ascii.eqb c "#"%char
      then EmptyString
      else String c (take_netloc s')
  end.

Definition string_mem (c : ascii) (s : string) : bool :=
  negb (string_forallb (fun d => negb (Ascii.eqb c d)) s).

Definition urlsplit_basic (u : string) : option ParseResult :=
  let (sch, rest) :=
    match split_colon u with
    | Some (String c pre, post) =>
        if is_alpha c && string_forallb is_scheme_char (String c pre)
        then (string_map to_lower (String c pre), post)
        else (EmptyString, u)
    | _ => (EmptyString, u)
    end in
  match rest with
  | String "/" (String "/" after) =>
      let loc := take_netloc after in
      if xorb (string_mem "["%char loc) (string_mem "]"%char loc)
      then None                         (* ValueError: Invalid IPv6 URL *)
      else Some {| scheme := sch; netloc := loc |}
  | _ => Some {| scheme := sch; netloc := EmptyString |}
  end.

(** ** Percent-encoding

    [urllib.parse.quote(string, safe)] on the UTF-8 bytes of a text, which
    is how the texts of a request body are held here: a byte is kept when it
    is a letter, a digit, one of [_.-~] or one of [safe], and written as
    [%] and its two upper-case hexadecimal digits otherwise.  (A text with
    no UTF-8 form, one with a lone surrogate, is not a value of [string];
    SQLite's binding refuses it before [quote] is ever reached.) *)

Definition always_safe : string :=
  "ABCDEFGHIJKLMNOPQRSTUVWXYZabcdefghijklmnopqrstuvwxyz0123456789_.-~".

Definition quote_keeps (safe : string) (c : ascii) : bool :=
  string_mem c always_safe || string_mem c safe.

Definition hex_digit (n : nat) : ascii :=
  nth n (list_ascii_of_string "0123456789ABCDEF") "0"%char.

Definition quote_byte (safe : string) (c : ascii) : string :=
  if quote_keeps safe c then String c EmptyString
  else String "%"
         (String (hex_digit (Nat.div (nat_of_ascii c) 16))
            (String (hex_digit (Nat.modulo (nat_of_ascii c) 16)) EmptyString)).

Fixpoint quote (s safe : string) : string :=
  match s with
  | EmptyString => EmptyString
  | String c s' => String.append (quote_byte safe c) (quote s' safe)
  end.

(** The [safe] characters [RedirectResponse] passes to [quote]. *)
Definition redirect_safe : string := ":/%#?=@[]!$&'()*+,;".

(** [RedirectResponse(url=..., status_code=...)] *)
Definition redirect_response (url : string) (status_code : Z)
  : RedirectResponse :=
  {| location := quote url redirect_safe; status_code := status_code |}.

(** Noon of 2025-01-01 on the store's clock, and the same instant on a local
    clock five and a half hours ahead. *)
Definition sample_clock : clock :=
  {| sqlite_now := 739251 * 86400 + 43200;
     datetime_now := (739251 * 86400 + 43200 + 19800) * 1000000 |}.

Definition sample_request : Request :=
  {| x_forwarded_for := Some "203.0.113.7, 10.0.0.1";
     client_host := "10.0.0.1";
     header_user_agent := Some "curl/8.5.0";
     header_referer := None |}.

(** A generator that always draws index 0: every code is [aaaaaa]. *)
Definition sample_rand : nat -> nat := fun _ => O.

(** [init_database()] on a fresh file: both tables empty. *)
Definition empty_database : database :=
  {| urls := []; urls_seq := 0; analytics := []; analytics_seq := 0 |}.

Definition sample_link (id : Z) (u code : string) (created clicks : Z)
    (active : bool) (expires : option Z) : Urls.row :=
  {| Urls.id := id; Urls.original_url := u; Urls.short_code := code;
     Urls.created_at := created; Urls.clicks := clicks;
     Urls.is_active := active; Urls.expires_at := expires |}.

Definition sample_click (id : Z) (code : string) (at_ : Z) : Analytics.row :=
  {| Analytics.id := id; Analytics.short_code := code;
     Analytics.ip_address := "203.0.113.7";
     Analytics.user_agent := "curl/8.5.0";
     Analytics.referrer := EmptyString;
     Analytics.clicked_at := at_ |}.

(** One active link with two recorded clicks, and one deactivated link. *)
Definition sample_database : database :=
  {| urls :=
       [ sample_link 1 "https://example.com/page" "abc123"
                     (739250 * 86400) 2 true None;
         sample_link 2 "https://example.org/old" "gone42"
                     (739250 * 86400 + 60) 0 false None ];
     urls_seq := 2;
     analytics :=
       [ sample_click 1 "abc123" (739250 * 86400 + 100);
         sample_click 2 "abc123" (739251 * 86400 + 5) ];
     analytics_seq := 2 |}.

(** The configured base URL (its default) and a renderer that only wraps
    its input in the data-URI prefix. *)
Definition sample_base_url : string := "http://localhost:5001".

Definition sample_qr (u : string) : string :=
  String.append "data:image/png;base64," u.

(** Two days after [sample_clock]. *)
Definition later_clock : clock :=
  {| sqlite_now := sqlite_now sample_clock + 2 * 86400;
     datetime_now := datetime_now sample_clock + 2 * microseconds_per_day |}.

(** Two active links for one URL, as two racing requests can leave them. *)
Definition race_database : database :=
  {| urls :=
       [ sample_link 1 "https://example.com/page" "first1" 100 0 true None;
         sample_link 2 "https://example.com/page" "second" 200 0 true None ];
     urls_seq := 2;
     analytics := [];
     analytics_seq := 0 |}.

(** An active link that expired one microsecond before [sample_clock]. *)
Definition expired_link : Urls.row :=
  sample_link 1 "https://example.com/page" "abc123" (739250 * 86400) 0 true
              (Some (datetime_now sample_clock - 1)).

Definition expired_database : database :=
  {| urls := [expired_link]; urls_seq := 1;
     analytics := []; analytics_seq := 0 |}.

(** A first request on an empty store, with a custom code, and what it is
    answered with and leaves behind. *)
Definition sample_url_data : URLCreate.t :=
  {| URLCreate.original_url := "https://example.com/page";
     URLCreate.custom_code := Some "abc123";
     URLCreate.expires_in_days := None |}.

Definition created_response : URLResponse.t :=
  {| URLResponse.id := 1;
     URLResponse.original_url := "https://example.com/page";
     URLResponse.short_code := "abc123";
     URLResponse.short_url := "http://localhost:5001/abc123";
     URLResponse.created_at := IsoFormat (datetime_now sample_clock);
     URLResponse.clicks := 0;
     URLResponse.qr_code :=
       "data:image/png;base64,http://localhost:5001/abc123" |}.

Definition created_database : database :=
  {| urls := [ sample_link 1 "https://example.com/page" "abc123"
                           (sqlite_now sample_clock) 0 true None ];
     urls_seq := 1; analytics := []; analytics_seq := 0 |}.

(** Clicks recorded ten days before [sample_clock] only, and today only. *)
Definition old_clicks_database : database :=
  {| urls := urls created_database; urls_seq := 1;
     analytics :=
       [ sample_click 1 "abc123" (739241 * 86400 + 10);
         sample_click 2 "abc123" (739241 * 86400 + 20) ];
     analytics_seq := 2 |}.

Definition todays_clicks_database : database :=
  {| urls := urls created_database; urls_seq := 1;
     analytics :=
       [ sample_click 1 "abc123" (739251 * 86400 + 10);
         sample_click 2 "abc123" (739251 * 86400 + 20);
         sample_click 3 "abc123" (739251 * 86400 + 30) ];
     analytics_seq := 3 |}.


(** A first request on an empty store without a custom code, under
    [sample_rand], and what it is answered with and leaves behind. *)
Definition plain_url_data : URLCreate.t :=
  {| URLCreate.original_url := "https://example.com/page";
     URLCreate.custom_code := None;
     URLCreate.expires_in_days := None |}.

Definition generated_response : URLResponse.t :=
  {| URLResponse.id := 1;
     URLResponse.original_url := "https://example.com/page";
     URLResponse.short_code := "aaaaaa";
     URLResponse.short_url := "http://localhost:5001/aaaaaa";
     URLResponse.created_at := IsoFormat (datetime_now sample_clock);
     URLResponse.clicks := 0;
     URLResponse.qr_code :=
       "data:image/png;base64,http://localhost:5001/aaaaaa" |}.

Definition generated_database : database :=
  {| urls := [ sample_link 1 "https://example.com/page" "aaaaaa"
                           (sqlite_now sample_clock) 0 true None ];
     urls_seq := 1; analytics := []; analytics_seq := 0 |}.

Section Service.

Set Default Proof Using "Type".

(** The collaborators of the service: [urllib.parse.urlparse] ([None] when
    it raises), the configured base URL and the QR-code renderer. *)
Variable urlparse : string -> option ParseResult.
Variable BASE_URL : string.
Variable generate_qr_code : string -> string.

Definition is_valid_url (u : string) : bool :=
  match urlparse u with
  | Some result =>
      negb (String.eqb (scheme result) EmptyString)
      && negb (String.eqb (netloc result) EmptyString)
  | None => false
  end.

(** [f"{BASE_URL}/{short_code}"] *)
Definition short_url_of (short_code : string) : string :=
  String.append BASE_URL (String.append "/" short_code).

(** *** POST /api/shorten *)
Definition shorten_url (fuel : nat) (clk : clock) (rand : nat -> nat)
    (url_data : URLCreate.t) (db : database)
  : outcome URLResponse.t * database :=
  if negb (is_valid_url (URLCreate.original_url url_data))
  then (Raise (HTTPException 400 "Invalid URL format"), db)
  else
    get_db_connection
      (rows <- select_urls (url_is_active (URLCreate.original_url url_data)) ;;
       match fetchone rows with
       | Some existing_url =>
           let short_url := short_url_of (Urls.short_code existing_url) in
           ret {| URLResponse.id := Urls.id existing_url;
                  URLResponse.original_url := Urls.original_url existing_url;
                  URLResponse.short_code := Urls.short_code existing_url;
                  URLResponse.short_url := short_url;
                  URLResponse.created_at :=
                    SqlTimestamp (Urls.created_at existing_url);
                  URLResponse.clicks := Urls.clicks existing_url;
                  URLResponse.qr_code := generate_qr_code short_url |}
       | None =>
           short_code <-
             (if negb (truthy_str (URLCreate.custom_code url_data))
              then generate_unused_code fuel rand 0%nat
              else match URLCreate.custom_code url_data with
                   | Some short_code =>
                       rows <- select_urls (code_is short_code) ;;
                       match fetchone rows with
                       | Some _ =>
                           raise (HTTPException 400
                                    "Custom code already exists")
                       | None => ret short_code
                       end
                   | None => generate_unused_code fuel rand 0%nat
                   end) ;;
           expires_at <-
             (if truthy_int (URLCreate.expires_in_days url_data)
              then match URLCreate.expires_in_days url_data with
                   | Some n =>
                       delta <- lift (timedelta_days n) ;;
                       t <- lift (datetime_add (datetime_now clk) delta) ;;
                       ret (Some t)
                   | None => ret None
                   end
              else ret None) ;;
           url_id <- insert_url clk (URLCreate.original_url url_data)
                                short_code expires_at ;;
           commit ;;;
           let short_url := short_url_of short_code in
           ret {| URLResponse.id := url_id;
                  URLResponse.original_url := URLCreate.original_url url_data;
                  URLResponse.short_code := short_code;
                  URLResponse.short_url := short_url;
                  URLResponse.created_at := IsoFormat (datetime_now clk);
                  URLResponse.clicks := 0;
                  URLResponse.qr_code := generate_qr_code short_url |}
       end) db.

(** *** GET /{short_code} *)
Definition redirect_url (clk : clock) (short_code : string)
    (request : Request) (db : database)
  : outcome RedirectResponse * database :=
  get_db_connection
    (rows <- select_urls (code_is_active short_code) ;;
     match fetchone rows with
     | None => raise (HTTPException 404 "Short URL not found")
     | Some url_data =>
         (match Urls.expires_at url_data with
          | Some expires_at =>
              if expires_at <? datetime_now clk
              then raise (HTTPException 410 "Short URL has expired")
              else ret tt
          | None => ret tt
          end) ;;;
         let ip_address := get_client_ip request in
         let user_agent := header_or_empty (header_user_agent request) in
         let referrer := header_or_empty (header_referer request) in
         insert_analytics clk short_code ip_address user_agent referrer ;;;
         update_urls (code_is short_code) set_clicks_plus_1 ;;;
         commit ;;;
         ret (redirect_response (Urls.original_url url_data) 302)
     end) db.

(** *** GET /api/analytics *)
Definition get_analytics (clk : clock) (db : database)
  : outcome AnalyticsResponse.t * database :=
  get_db_connection
    (active <- select_urls Urls.is_active ;;
     let total_links := Z.of_nat (List.length active) in
     everything <- select_analytics (fun _ => true) ;;
     let total_clicks := Z.of_nat (List.length everything) in
     let today := date_today clk in
     todays <- select_analytics
                 (fun a => DATE (Analytics.clicked_at a) =? today) ;;
     let today_clicks := Z.of_nat (List.length todays) in
     recent <- select_analytics
                 (fun a => timestamp_ge_date (Analytics.clicked_at a)
                                             (date_now_plus_days clk (-7))) ;;
     let click_data :=
       group_count (map (fun a => DATE (Analytics.clicked_at a)) recent) in
     ret {| AnalyticsResponse.total_links := total_links;
            AnalyticsResponse.total_clicks := total_clicks;
            AnalyticsResponse.today_clicks := today_clicks;
            AnalyticsResponse.click_data := click_data |}) db.

(** *** GET /api/analytics/{short_code} *)
Definition click_info_of (a : Analytics.row) : click_info :=
  {| ci_ip_address := Analytics.ip_address a;
     ci_user_agent := Analytics.user_agent a;
     ci_referrer := Analytics.referrer a;
     ci_clicked_at := Analytics.clicked_at a |}.

Definition get_url_analytics (short_code : string) (db : database)
  : outcome (url_info * list click_info) * database :=
  get_db_connection
    (rows <- select_urls (code_is short_code) ;;
     match fetchone rows with
     | None => raise (HTTPException 404 "Short URL not found")
     | Some url_data =>
         events <- select_analytics (click_of short_code) ;;
         let clicks :=
           map click_info_of (order_by_desc Analytics.clicked_at events) in
         ret ({| ui_original_url := Urls.original_url url_data;
                 ui_short_code := Urls.short_code url_data;
                 ui_created_at := Urls.created_at url_data;
                 ui_total_clicks := Urls.clicks url_data |}, clicks)
     end) db.

(** *** GET /api/links *)
Definition link_info_of (r : Urls.row) : link_info :=
  {| li_id := Urls.id r;
     li_original_url := Urls.original_url r;
     li_short_code := Urls.short_code r;
     li_short_url := short_url_of (Urls.short_code r);
     li_created_at := Urls.created_at r;
     li_clicks := Urls.clicks r |}.

Definition get_all_links (db : database) : outcome (list link_info) * database :=
  get_db_connection
    (rows <- select_urls Urls.is_active ;;
     ret (map link_info_of (order_by_desc Urls.created_at rows))) db.

(** *** DELETE /api/links/{short_code} *)
Definition delete_link (short_code : string) (db : database)
  : outcome string * database :=
  get_db_connection
    (rowcount <- update_urls (code_is short_code) set_is_active_0 ;;
     if rowcount =? 0
     then raise (HTTPException 404 "Short URL not found")
     else commit ;;; ret "Link deactivated successfully") db.

(** *** Sequences of requests

    The requests that write to the store, and the store after a sequence of
    them has been served one after the other. *)
Inductive api_call :=
| POST_shorten (fuel : nat) (clk : clock) (rand : nat -> nat)
               (url_data : URLCreate.t)
| GET_redirect (clk : clock) (short_code : string) (request : Request)
| DELETE_link (short_code : string).

Definition serve (db : database) (call : api_call) : database :=
  match call with
  | POST_shorten fuel clk rand url_data =>
      snd (shorten_url fuel clk rand url_data db)
  | GET_redirect clk short_code request =>
      snd (redirect_url clk short_code request db)
  | DELETE_link short_code => snd (delete_link short_code db)
  end.

Definition serve_all (db : database) (calls : list api_call) : database :=
  fold_left serve calls db.

(** *** Invariants and the properties the routes are measured against *)

(** The states the service produces: short codes are unique (the UNIQUE
    constraint of the schema) and never empty, and every stored URL passed
    validation. *)
Definition db_wf (db : database) : Prop :=
  NoDup (map Urls.short_code (urls db))
  /\ Forall (fun r => Urls.short_code r <> EmptyString) (urls db)
  /\ Forall (fun r => is_valid_url (Urls.original_url r) = true) (urls db).

(** A code that is taken and no longer resolves. *)
Definition retired (short_code : string) (db : database) : Prop :=
  (exists r, In r (urls db) /\ Urls.short_code r = short_code)
  /\ forall r, In r (urls db) -> Urls.short_code r = short_code ->
               Urls.is_active r = false.

(** At most one active link per URL: what requests served one after the
    other maintain (two racing requests can break it). *)
Definition one_active_per_url (db : database) : Prop :=
  forall r r', In r (urls db) -> In r' (urls db) ->
               Urls.is_active r = true -> Urls.is_active r' = true ->
               Urls.original_url r = Urls.original_url r' -> r = r'.

(** The row [shorten_url] binds to [existing_url]. *)
Definition existing_url (original_url : string) (db : database)
  : option Urls.row :=
  fetchone (filter (url_is_active original_url) (urls db)).

Definition active_for (original_url : string) (r : Urls.row) : Prop :=
  Urls.original_url r = original_url /\ Urls.is_active r = true.

(** [found] is the active link for the URL created last, or nothing when
    there is none. *)
Definition most_recent_active (original_url : string) (rows : list Urls.row)
    (found : option Urls.row) : Prop :=
  match found with
  | Some r =>
      In r rows /\ active_for original_url r
      /\ forall r', In r' rows -> active_for original_url r' ->
                    Urls.created_at r' <= Urls.created_at r
  | None => forall r', In r' rows -> ~ active_for original_url r'
  end.

(** [found] is the active link for the URL that comes first in rowid order,
    or nothing when there is none. *)
Definition first_active (original_url : string) (rows : list Urls.row)
    (found : option Urls.row) : Prop :=
  match found with
  | Some r =>
      exists before after,
        rows = before ++ r :: after /\ active_for original_url r
        /\ forall r', In r' before -> ~ active_for original_url r'
  | None => forall r', In r' rows -> ~ active_for original_url r'
  end.

(** The row [INSERT INTO urls] adds. *)
Definition inserted_row (clk : clock) (db : database)
    (original_url short_code : string) (expires_at : option Z) : Urls.row :=
  {| Urls.id := urls_seq db + 1;
     Urls.original_url := original_url;
     Urls.short_code := short_code;
     Urls.created_at := sqlite_now clk;
     Urls.clicks := 0;
     Urls.is_active := true;
     Urls.expires_at := expires_at |}.

Definition with_inserted_row (db : database) (r : Urls.row) : database :=
  {| urls := urls db ++ [r];
     urls_seq := urls_seq db + 1;
     analytics := analytics db;
     analytics_seq := analytics_seq db |}.

(** The store after a successful redirect through [short_code]. *)
Definition with_click (clk : clock) (short_code : string) (request : Request)
    (db : database) : database :=
  {| urls := map (fun r => if code_is short_code r
                           then set_clicks_plus_1 r else r) (urls db);
     urls_seq := urls_seq db;
     analytics :=
       analytics db ++
       [ {| Analytics.id := analytics_seq db + 1;
            Analytics.short_code := short_code;
            Analytics.ip_address := get_client_ip request;
            Analytics.user_agent :=
              header_or_empty (header_user_agent request);
            Analytics.referrer := header_or_empty (header_referer request);
            Analytics.clicked_at := sqlite_now clk |} ];
     analytics_seq := analytics_seq db + 1 |}.

Definition with_deactivated (short_code : string) (db : database)
  : database :=
  {| urls := map (fun r => if code_is short_code r
                           then set_is_active_0 r else r) (urls db);
     urls_seq := urls_seq db;
     analytics := analytics db;
     analytics_seq := analytics_seq db |}.

(** The number of recorded clicks that fall on date [d]. *)
Definition clicks_on (d : Z) (events : list Analytics.row) : Z :=
  Z.of_nat (List.length
              (filter (fun a => DATE (Analytics.clicked_at a) =? d) events)).

(** What [shorten_url] stores as [expires_at] for a given [expires_in_days],
    when it gets as far as storing a row. *)
Definition expiry_computed (clk : clock) (days : option Z) (e : option Z)
  : Prop :=
  match days with
  | None => e = None
  | Some n =>
      if n =? 0 then e = None
      else Z.abs n <= timedelta_max_days
           /\ 0 <= datetime_now clk + n * microseconds_per_day < datetime_end
           /\ e = Some (datetime_now clk + n * microseconds_per_day)
  end.



(** *** Further notions the routes are measured against *)

Definition is_alnum (c : ascii) : bool := is_alpha c || is_digit c.

(** The click counter of every link is the number of clicks recorded for its
    code, and every recorded click belongs to a link. *)
Definition clicks_consistent (db : database) : Prop :=
  (forall r, In r (urls db) ->
             Urls.clicks r
             = Z.of_nat (List.length
                           (filter (click_of (Urls.short_code r))
                                   (analytics db))))
  /\ (forall a, In a (analytics db) ->
                exists r, In r (urls db)
                          /\ Urls.short_code r = Analytics.short_code a).

(** The ids of both tables are 1, 2, ... in rowid order, and each
    AUTOINCREMENT sequence stands at the number of rows of its table. *)
Definition ids_dense (db : database) : Prop :=
  map Urls.id (urls db)
  = map Z.of_nat (seq 1 (List.length (urls db)))
  /\ urls_seq db = Z.of_nat (List.length (urls db))
  /\ map Analytics.id (analytics db)
     = map Z.of_nat (seq 1 (List.length (analytics db)))
  /\ analytics_seq db = Z.of_nat (List.length (analytics db)).

(** The clicks a grouped result accounts for. *)
Definition sum_counts (groups : list (Z * Z)) : Z :=
  fold_right (fun entry acc => snd entry + acc) 0 groups.

(** Two rows that are the same link: all columns but the click counter and
    the active flag agree. *)
Definition same_link (r r' : Urls.row) : Prop :=
  Urls.id r' = Urls.id r
  /\ Urls.original_url r' = Urls.original_url r
  /\ Urls.short_code r' = Urls.short_code r
  /\ Urls.created_at r' = Urls.created_at r
  /\ Urls.expires_at r' = Urls.expires_at r.

(** An [expires_in_days] for which the expiration can be computed: missing,
    0, or within what [timedelta] and [datetime] can hold. *)
Definition expiry_in_range (clk : clock) (days : option Z) : Prop :=
  match days with
  | None => True
  | Some n =>
      n = 0
      \/ (Z.abs n <= timedelta_max_days
          /\ 0 <= datetime_now clk + n * microseconds_per_day < datetime_end)
  end.

Definition expiry_value (clk : clock) (days : option Z) : option Z :=
  match days with
  | None => None
  | Some n => if n =? 0 then None
              else Some (datetime_now clk + n * microseconds_per_day)
  end.

(** What the expiration step of [shorten_url] comes to. *)
Definition expiry_outcome (clk : clock) (days : option Z)
  : outcome (option Z) :=
  match days with
  | None => Return None
  | Some n =>
      if n =? 0 then Return None
      else if Z.abs n <=? timedelta_max_days
           then if (0 <=? datetime_now clk + n * microseconds_per_day)
                   && (datetime_now clk + n * microseconds_per_day
                       <? datetime_end)
                then Return (Some (datetime_now clk + n * microseconds_per_day))
                else Raise OverflowError
           else Raise OverflowError
  end.

(** What [shorten_url] answers and leaves behind once the code [sc] is
    settled: the new link, unless the expiration cannot be computed. *)
Definition created (clk : clock) (db : database) (u sc : string)
    (days : option Z) : outcome URLResponse.t * database :=
  match expiry_outcome clk days with
  | Return e =>
      (Return {| URLResponse.id := urls_seq db + 1;
                 URLResponse.original_url := u;
                 URLResponse.short_code := sc;
                 URLResponse.short_url := short_url_of sc;
                 URLResponse.created_at := IsoFormat (datetime_now clk);
                 URLResponse.clicks := 0;
                 URLResponse.qr_code := generate_qr_code (short_url_of sc) |},
       with_inserted_row db (inserted_row clk db u sc e))
  | Raise x => (Raise x, db)
  | Diverge => (Diverge, db)
  end.

(** *** Lists and selections *)

Lemma fetchone_filter_None {A} (p : A -> bool) (l : list A) :
  fetchone (filter p l) = None <-> forall x, In x l -> p x = false.
Proof.
  induction l as [|a l IH]; simpl.
  - split; [intros _ x []|reflexivity].
  - destruct (p a) eqn:Ha; simpl.
    + split; [discriminate|].
      intros H. rewrite (H a) in Ha by (now left). discriminate.
    + rewrite IH. split.
      * intros H x [<-|Hx]; auto.
      * intros H x Hx. apply H. now right.
Qed.

Lemma fetchone_filter_Some {A} (p : A -> bool) (l : list A) (x : A) :
  fetchone (filter p l) = Some x ->
  exists before after,
    l = before ++ x :: after /\ p x = true
    /\ forall y, In y before -> p y = false.
Proof.
  induction l as [|a l IH]; simpl; [discriminate|].
  destruct (p a) eqn:Ha; simpl.
  - intros [= <-]. exists [], l. repeat split; auto. intros y [].
  - intros H. destruct (IH H) as (b & t & -> & Hx & Hb).
    exists (a :: b), t. repeat split; auto.
    intros y [<-|Hy]; auto.
Qed.

Lemma fetchone_filter_In {A} (p : A -> bool) (l : list A) (x : A) :
  fetchone (filter p l) = Some x -> In x l /\ p x = true.
Proof.
  intros H. destruct (fetchone_filter_Some _ _ _ H) as (b & t & -> & Hx & _).
  split; [apply in_or_app; right; now left|exact Hx].
Qed.

Lemma filter_none {A} (p : A -> bool) (l : list A) :
  (forall x, In x l -> p x = false) -> filter p l = [].
Proof.
  induction l as [|a l IH]; simpl; intros H; [reflexivity|].
  rewrite (H a) by (now left). apply IH. intros x Hx. apply H. now right.
Qed.

Lemma filter_andb {A} (p q : A -> bool) (l : list A) :
  filter (fun x => p x && q x) l = filter q (filter p l).
Proof.
  induction l as [|a l IH]; simpl; [reflexivity|].
  destruct (p a); simpl; [destruct (q a)|]; now rewrite IH.
Qed.

Lemma code_is_true (c : string) (r : Urls.row) :
  code_is c r = true <-> Urls.short_code r = c.
Proof. unfold code_is. apply String.eqb_eq. Qed.

Lemma code_is_false (c : string) (r : Urls.row) :
  code_is c r = false <-> Urls.short_code r <> c.
Proof. unfold code_is. apply String.eqb_neq. Qed.

Lemma url_is_active_true (u : string) (r : Urls.row) :
  url_is_active u r = true <-> active_for u r.
Proof.
  unfold url_is_active, active_for.
  rewrite andb_true_iff, String.eqb_eq. reflexivity.
Qed.

Lemma url_is_active_false (u : string) (r : Urls.row) :
  url_is_active u r = false <-> ~ active_for u r.
Proof.
  rewrite <- url_is_active_true.
  destruct (url_is_active u r); split; intros H; congruence.
Qed.

Lemma sorted_after {A} (R : A -> A -> Prop) (before : list A) (x : A)
    (after : list A) :
  StronglySorted R (before ++ x :: after) ->
  forall y, In y after -> R x y.
Proof.
  induction before as [|a before IH]; cbn [app]; intros H y Hy;
    inversion H as [|? ? Htail Hall]; subst.
  - rewrite Forall_forall in Hall. now apply Hall.
  - now apply IH.
Qed.

(** Under the UNIQUE constraint a code selects its row and nothing else. *)
Lemma select_by_code (rows : list Urls.row) (r : Urls.row) :
  NoDup (map Urls.short_code rows) -> In r rows ->
  filter (code_is (Urls.short_code r)) rows = [r].
Proof.
  induction rows as [|a rows IH]; simpl; [intros _ []|].
  intros Hnd Hin. inversion Hnd as [|? ? Hnotin Hnd']; subst.
  destruct Hin as [->|Hin].
  - replace (code_is (Urls.short_code r) r) with true
      by (symmetry; now apply code_is_true).
    f_equal. apply filter_none. intros x Hx. apply code_is_false.
    intros E. apply Hnotin. rewrite <- E. now apply in_map.
  - replace (code_is (Urls.short_code r) a) with false.
    + now apply IH.
    + symmetry. apply code_is_false. intros E. apply Hnotin.
      rewrite E. now apply in_map.
Qed.

Lemma select_active_by_code (rows : list Urls.row) (r : Urls.row) :
  NoDup (map Urls.short_code rows) -> In r rows ->
  filter (code_is_active (Urls.short_code r)) rows =
  if Urls.is_active r then [r] else [].
Proof.
  intros Hnd Hin. unfold code_is_active.
  change (fun r0 => (Urls.short_code r0 =? Urls.short_code r)%string
                    && Urls.is_active r0)
    with (fun r0 => code_is (Urls.short_code r) r0 && Urls.is_active r0).
  rewrite filter_andb, select_by_code by assumption.
  simpl. now destruct (Urls.is_active r).
Qed.

(** *** The routes, case by case *)

Lemma redirect_url_eq (clk : clock) (c : string) (request : Request)
    (db : database) :
  redirect_url clk c request db =
  match fetchone (filter (code_is_active c) (urls db)) with
  | None => (Raise (HTTPException 404 "Short URL not found"), db)
  | Some u =>
      let ok := (Return (redirect_response (Urls.original_url u) 302),
                 with_click clk c request db) in
      match Urls.expires_at u with
      | Some e => if e <? datetime_now clk
                  then (Raise (HTTPException 410 "Short URL has expired"), db)
                  else ok
      | None => ok
      end
  end.
Proof.
  unfold redirect_url, get_db_connection, bind, select_urls. cbn [working].
  destruct (fetchone (filter (code_is_active c) (urls db))) as [u|];
    [|reflexivity].
  destruct (Urls.expires_at u) as [e|]; [destruct (e <? datetime_now clk)|];
    reflexivity.
Qed.

Lemma delete_link_eq (c : string) (db : database) :
  delete_link c db =
  if Z.of_nat (List.length (filter (code_is c) (urls db))) =? 0
  then (Raise (HTTPException 404 "Short URL not found"), db)
  else (Return "Link deactivated successfully", with_deactivated c db).
Proof.
  unfold delete_link, get_db_connection, bind, update_urls. cbn [working].
  destruct (Z.of_nat (List.length (filter (code_is c) (urls db))) =? 0);
    reflexivity.
Qed.

Lemma rowcount_zero (c : string) (rows : list Urls.row) :
  (Z.of_nat (List.length (filter (code_is c) rows)) =? 0) = true
  <-> (forall r, In r rows -> Urls.short_code r <> c).
Proof.
  rewrite Z.eqb_eq. split.
  - intros H r Hr E.
    assert (Hin : In r (filter (code_is c) rows))
      by (apply filter_In; split; [assumption|now apply code_is_true]).
    destruct (filter (code_is c) rows); [destruct Hin|simpl in H; lia].
  - intros H. rewrite filter_none; [reflexivity|].
    intros r Hr. apply code_is_false. now apply H.
Qed.

Lemma generate_short_code_length (n : nat) (rand : nat -> nat) (pos : nat) :
  String.length (generate_short_code n rand pos) = n.
Proof.
  revert pos. induction n as [|n IH]; intros pos; simpl; [reflexivity|].
  now rewrite IH.
Qed.

(** The loop hands back a code only after the store said it is unused, and
    it writes nothing. *)
Lemma generate_unused_code_inv (fuel : nat) (rand : nat -> nat) (pos : nat)
    (c c' : connection) (o : outcome string) :
  generate_unused_code fuel rand pos c = (o, c') ->
  c' = c
  /\ match o with
     | Return sc =>
         (forall r, In r (urls (working c)) -> Urls.short_code r <> sc)
         /\ String.length sc = 6%nat
     | Raise _ => False
     | Diverge => True
     end.
Proof.
  revert pos o c'. induction fuel as [|fuel IH]; intros pos o c';
    cbn [generate_unused_code].
  - unfold lift. intros [= <- <-]. auto.
  - unfold bind, select_urls.
    destruct (fetchone (filter (code_is (generate_short_code 6 rand pos))
                               (urls (working c)))) eqn:Hf.
    + apply IH.
    + unfold ret. intros [= <- <-]. split; [reflexivity|]. split.
      * intros r Hr. apply code_is_false.
        now apply (proj1 (fetchone_filter_None _ _) Hf).
      * exact (generate_short_code_length 6 rand pos).
Qed.

(** The loop ends as soon as a drawn code is unused: with [k] rounds of
    fuel to spare it returns the first such code. *)
Lemma generate_unused_code_returns (fuel : nat) (rand : nat -> nat)
    (pos k : nat) (c : connection) :
  (k < fuel)%nat ->
  (forall r, In r (urls (working c)) ->
             Urls.short_code r <> generate_short_code 6 rand (pos + 6 * k)) ->
  exists sc, generate_unused_code fuel rand pos c = (Return sc, c).
Proof.
  revert pos k. induction fuel as [|fuel IH]; intros pos k Hk Hfree; [lia|].
  cbn [generate_unused_code]. unfold bind, select_urls.
  destruct (fetchone (filter (code_is (generate_short_code 6 rand pos))
                             (urls (working c)))) eqn:Hf.
  - destruct k as [|k].
    + exfalso. apply fetchone_filter_In in Hf. destruct Hf as [Hin Hc].
      apply code_is_true in Hc. apply (Hfree _ Hin).
      rewrite Hc. f_equal. lia.
    + apply (IH (pos + 6)%nat k); [lia|].
      intros r' Hr. replace (pos + 6 + 6 * k)%nat with (pos + 6 * S k)%nat by lia.
      now apply Hfree.
  - eexists. reflexivity.
Qed.

Lemma shorten_url_invalid (fuel : nat) (clk : clock) (rand : nat -> nat)
    (url_data : URLCreate.t) (db : database) :
  is_valid_url (URLCreate.original_url url_data) = false ->
  shorten_url fuel clk rand url_data db =
  (Raise (HTTPException 400 "Invalid URL format"), db).
Proof. intros H. unfold shorten_url. now rewrite H. Qed.

Lemma shorten_url_reuse (fuel : nat) (clk : clock) (rand : nat -> nat)
    (url_data : URLCreate.t) (db : database) (r : Urls.row) :
  is_valid_url (URLCreate.original_url url_data) = true ->
  existing_url (URLCreate.original_url url_data) db = Some r ->
  shorten_url fuel clk rand url_data db =
  (Return {| URLResponse.id := Urls.id r;
             URLResponse.original_url := Urls.original_url r;
             URLResponse.short_code := Urls.short_code r;
             URLResponse.short_url := short_url_of (Urls.short_code r);
             URLResponse.created_at := SqlTimestamp (Urls.created_at r);
             URLResponse.clicks := Urls.clicks r;
             URLResponse.qr_code :=
               generate_qr_code (short_url_of (Urls.short_code r)) |}, db).
Proof.
  intros Hv He. unfold shorten_url. rewrite Hv. cbn [negb].
  unfold get_db_connection, bind at 1. unfold select_urls at 1. cbn [working].
  unfold existing_url in He. rewrite He. reflexivity.
Qed.

Lemma shorten_url_new (fuel : nat) (clk : clock) (rand : nat -> nat)
    (url_data : URLCreate.t) (db db' : database)
    (o : outcome URLResponse.t) :
  is_valid_url (URLCreate.original_url url_data) = true ->
  existing_url (URLCreate.original_url url_data) db = None ->
  shorten_url fuel clk rand url_data db = (o, db') ->
  match o with
  | Return resp =>
      exists e,
        (forall r, In r (urls db) ->
                   Urls.short_code r <> URLResponse.short_code resp)
        /\ URLResponse.short_code resp <> EmptyString
        /\ (truthy_str (URLCreate.custom_code url_data) = true ->
            URLCreate.custom_code url_data
            = Some (URLResponse.short_code resp))
        /\ expiry_computed clk (URLCreate.expires_in_days url_data) e
        /\ db' = with_inserted_row db
                   (inserted_row clk db (URLCreate.original_url url_data)
                                 (URLResponse.short_code resp) e)
        /\ resp =
           {| URLResponse.id := urls_seq db + 1;
              URLResponse.original_url := URLCreate.original_url url_data;
              URLResponse.short_code := URLResponse.short_code resp;
              URLResponse.short_url :=
                short_url_of (URLResponse.short_code resp);
              URLResponse.created_at := IsoFormat (datetime_now clk);
              URLResponse.clicks := 0;
              URLResponse.qr_code :=
                generate_qr_code (short_url_of (URLResponse.short_code resp)) |}
  | Raise _ | Diverge => db' = db
  end.
Proof.
  intros Hv He. unfold shorten_url. rewrite Hv. cbn [negb].
  unfold get_db_connection, bind at 1. unfold select_urls at 1. cbn [working].
  unfold existing_url in He. rewrite He.
  set (choose := if negb (truthy_str _) then _ else _).
  set (expiry := if truthy_int _ then _ else _).
  assert (HA : forall c o1 c1, choose c = (o1, c1) ->
            c1 = c
            /\ match o1 with
               | Return sc =>
                   (forall r, In r (urls (working c)) ->
                              Urls.short_code r <> sc)
                   /\ sc <> EmptyString
                   /\ (truthy_str (URLCreate.custom_code url_data) = true ->
                       URLCreate.custom_code url_data = Some sc)
               | _ => True
               end).
  { intros c o1 c1. subst choose.
    destruct (URLCreate.custom_code url_data) as [[|a sc]|]; cbn [truthy_str negb].
    1,3: intros H; apply generate_unused_code_inv in H;
         destruct H as [-> H]; split; [reflexivity|];
         destruct o1 as [sc| |]; try exact I;
         destruct H as [Hfree Hlen]; repeat split;
         [exact Hfree|intros ->; discriminate Hlen|discriminate].
    unfold bind, select_urls.
    destruct (fetchone (filter (code_is (String a sc)) (urls (working c))))
      eqn:Hf.
    - unfold raise. intros [= <- <-]. auto.
    - unfold ret. intros [= <- <-]. split; [reflexivity|]. repeat split.
      + intros r Hr. apply code_is_false.
        now apply (proj1 (fetchone_filter_None _ _) Hf).
      + discriminate. }
  assert (HB : forall c o2 c2, expiry c = (o2, c2) ->
            c2 = c
            /\ match o2 with
               | Return e =>
                   expiry_computed clk (URLCreate.expires_in_days url_data) e
               | _ => True
               end).
  { intros c o2 c2. subst expiry. unfold expiry_computed.
    destruct (URLCreate.expires_in_days url_data) as [n|]; cbn [truthy_int].
    2: unfold ret; intros [= <- <-]; auto.
    destruct (n =? 0) eqn:Hn; cbn [negb].
    1: unfold ret; intros [= <- <-]; auto.
    unfold bind, lift, timedelta_days, datetime_add, ret.
    destruct (Z.abs n <=? timedelta_max_days) eqn:H1.
    2: intros [= <- <-]; auto.
    destruct ((0 <=? datetime_now clk + n * microseconds_per_day)
              && (datetime_now clk + n * microseconds_per_day <? datetime_end))
      eqn:H2.
    2: intros [= <- <-]; auto.
    intros [= <- <-]. split; [reflexivity|].
    apply andb_true_iff in H2. destruct H2 as [H2 H3].
    repeat split; lia. }
  clearbody choose expiry.
  unfold bind at 1.
  destruct (choose {| committed := db; working := db |}) as [o1 c1] eqn:E1.
  apply HA in E1. destruct E1 as [-> E1].
  destruct o1 as [sc| |]; [|intros [= <- <-]; reflexivity..].
  cbn [working] in E1. destruct E1 as (Hfree & Hne & Hcustom).
  unfold bind at 1.
  destruct (expiry {| committed := db; working := db |}) as [o2 c2] eqn:E2.
  apply HB in E2. destruct E2 as [-> E2].
  destruct o2 as [e| |]; [|intros [= <- <-]; reflexivity..].
  unfold bind, insert_url, commit, ret. cbn [working committed].
  replace (existsb (fun r => (Urls.short_code r =? sc)%string) (urls db))
    with false.
  - intros [= <- <-]. exists e. cbn [URLResponse.short_code].
    repeat split; assumption.
  - symmetry. apply not_true_is_false. intros H.
    apply existsb_exists in H. destruct H as (r & Hr & Hc).
    apply String.eqb_eq in Hc. now apply (Hfree r).
Qed.

(** *** What a request leaves in the store *)

Lemma shorten_url_store (fuel : nat) (clk : clock) (rand : nat -> nat)
    (url_data : URLCreate.t) (db : database) :
  snd (shorten_url fuel clk rand url_data db) = db
  \/ exists sc e,
       (forall r, In r (urls db) -> Urls.short_code r <> sc)
       /\ sc <> EmptyString
       /\ is_valid_url (URLCreate.original_url url_data) = true
       /\ (forall r, In r (urls db) ->
                     ~ active_for (URLCreate.original_url url_data) r)
       /\ snd (shorten_url fuel clk rand url_data db)
          = with_inserted_row db
              (inserted_row clk db (URLCreate.original_url url_data) sc e).
Proof.
  destruct (is_valid_url (URLCreate.original_url url_data)) eqn:Hv.
  2: left; now rewrite shorten_url_invalid.
  destruct (existing_url (URLCreate.original_url url_data) db) as [r|] eqn:He.
  1: left; now rewrite (shorten_url_reuse _ _ _ _ _ _ Hv He).
  destruct (shorten_url fuel clk rand url_data db) as [o db'] eqn:E.
  pose proof (shorten_url_new _ _ _ _ _ _ _ Hv He E) as H. cbn [snd].
  destruct o as [resp| |]; [|now left..].
  destruct H as (e & Hfree & Hne & _ & _ & -> & _).
  right. exists (URLResponse.short_code resp), e.
  repeat split; try assumption.
  intros r Hr. apply url_is_active_false.
  unfold existing_url in He. now apply (proj1 (fetchone_filter_None _ _) He).
Qed.

Lemma redirect_url_store (clk : clock) (c : string) (request : Request)
    (db : database) :
  snd (redirect_url clk c request db) = db
  \/ snd (redirect_url clk c request db) = with_click clk c request db.
Proof.
  rewrite redirect_url_eq.
  destruct (fetchone (filter (code_is_active c) (urls db))) as [u|]; [|now left].
  cbv zeta.
  destruct (Urls.expires_at u) as [e|]; [destruct (e <? datetime_now clk)|];
    auto.
Qed.

Lemma delete_link_store (c : string) (db : database) :
  snd (delete_link c db) = db
  \/ snd (delete_link c db) = with_deactivated c db.
Proof.
  rewrite delete_link_eq.
  destruct (Z.of_nat (List.length (filter (code_is c) (urls db))) =? 0); auto.
Qed.

(** An UPDATE that leaves a column alone leaves it alone in every row. *)
Lemma update_keeps_column {B} (col : Urls.row -> B) (p : Urls.row -> bool)
    (set : Urls.row -> Urls.row) (rows : list Urls.row) :
  (forall r, col (set r) = col r) ->
  map col (map (fun r => if p r then set r else r) rows) = map col rows.
Proof.
  intros H. rewrite map_map. apply map_ext. intros r.
  destruct (p r); [apply H|reflexivity].
Qed.

Lemma Forall_column {B} (col : Urls.row -> B) (P : B -> Prop)
    (rows : list Urls.row) :
  Forall (fun r => P (col r)) rows <-> Forall P (map col rows).
Proof. symmetry. apply Forall_map. Qed.

Lemma db_wf_columns (db db' : database) :
  map Urls.short_code (urls db') = map Urls.short_code (urls db) ->
  map Urls.original_url (urls db') = map Urls.original_url (urls db) ->
  db_wf db -> db_wf db'.
Proof.
  intros Hc Hu (Hnd & Hne & Hv). unfold db_wf.
  rewrite (Forall_column Urls.short_code (fun c => c <> EmptyString)) in *.
  rewrite (Forall_column Urls.original_url
             (fun u => is_valid_url u = true)) in *.
  rewrite Hc, Hu. auto.
Qed.

Lemma db_wf_empty : db_wf empty_database.
Proof. repeat split; constructor. Qed.

Lemma db_wf_inserted (clk : clock) (db : database) (u sc : string)
    (e : option Z) :
  db_wf db ->
  (forall r, In r (urls db) -> Urls.short_code r <> sc) ->
  sc <> EmptyString -> is_valid_url u = true ->
  db_wf (with_inserted_row db (inserted_row clk db u sc e)).
Proof.
  intros (Hnd & Hne & Hv) Hfree Hsc Hu. unfold db_wf, with_inserted_row.
  cbn [urls]. repeat split.
  - rewrite map_app. cbn [map inserted_row Urls.short_code].
    apply NoDup_app; [exact Hnd|repeat constructor; intros []|].
    intros c Hc [<-|[]]. apply in_map_iff in Hc.
    destruct Hc as (r & Hr & Hin). now apply (Hfree r).
  - apply Forall_app. split; [exact Hne|]. now repeat constructor.
  - apply Forall_app. split; [exact Hv|]. now repeat constructor.
Qed.

Lemma db_wf_shorten_url (fuel : nat) (clk : clock) (rand : nat -> nat)
    (url_data : URLCreate.t) (db : database) :
  db_wf db -> db_wf (snd (shorten_url fuel clk rand url_data db)).
Proof.
  intros Hwf.
  destruct (shorten_url_store fuel clk rand url_data db)
    as [->|(sc & e & Hfree & Hne & Hv & _ & ->)]; [exact Hwf|].
  now apply db_wf_inserted.
Qed.

Lemma db_wf_redirect_url (clk : clock) (c : string) (request : Request)
    (db : database) :
  db_wf db -> db_wf (snd (redirect_url clk c request db)).
Proof.
  intros Hwf. destruct (redirect_url_store clk c request db) as [->| ->];
    [exact Hwf|].
  apply (db_wf_columns db); [..|exact Hwf];
    now apply update_keeps_column.
Qed.

Lemma db_wf_delete_link (c : string) (db : database) :
  db_wf db -> db_wf (snd (delete_link c db)).
Proof.
  intros Hwf. destruct (delete_link_store c db) as [->| ->]; [exact Hwf|].
  apply (db_wf_columns db); [..|exact Hwf];
    now apply update_keeps_column.
Qed.

Lemma db_wf_serve (db : database) (call : api_call) :
  db_wf db -> db_wf (serve db call).
Proof.
  destruct call; cbn [serve];
    auto using db_wf_shorten_url, db_wf_redirect_url, db_wf_delete_link.
Qed.

Lemma db_wf_serve_all (calls : list api_call) (db : database) :
  db_wf db -> db_wf (serve_all db calls).
Proof.
  revert db. induction calls as [|call calls IH]; intros db Hwf; [exact Hwf|].
  apply IH. now apply db_wf_serve.
Qed.

Lemma one_active_per_url_update (p : Urls.row -> bool)
    (set : Urls.row -> Urls.row) (db db' : database) :
  (forall r, Urls.original_url (set r) = Urls.original_url r) ->
  (forall r, Urls.is_active (set r) = true -> Urls.is_active r = true) ->
  urls db' = map (fun r => if p r then set r else r) (urls db) ->
  one_active_per_url db -> one_active_per_url db'.
Proof.
  intros Hurl Hact Hrows Hone x y Hx Hy Hax Hay Hxy.
  rewrite Hrows in Hx, Hy. apply in_map_iff in Hx, Hy.
  destruct Hx as (a & <- & Ha). destruct Hy as (b & <- & Hb).
  assert (Hab : a = b); [|now subst].
  apply Hone; try assumption.
  - destruct (p a); [now apply Hact|exact Hax].
  - destruct (p b); [now apply Hact|exact Hay].
  - destruct (p a), (p b); rewrite ?Hurl in Hxy; exact Hxy.
Qed.

(** Served one after the other, requests never leave two active links for
    one URL. *)
Lemma one_active_per_url_serve (db : database) (call : api_call) :
  one_active_per_url db -> one_active_per_url (serve db call).
Proof.
  intros Hone. destruct call as [fuel clk rand url_data|clk c request|c];
    cbn [serve].
  - destruct (shorten_url_store fuel clk rand url_data db)
      as [->|(sc & e & _ & _ & _ & Hnone & ->)]; [exact Hone|].
    intros x y Hx Hy Hax Hay Hxy. cbn [with_inserted_row urls] in Hx, Hy.
    apply in_app_or in Hx, Hy.
    destruct Hx as [Hx|[<-|[]]], Hy as [Hy|[<-|[]]].
    + now apply Hone.
    + elim (Hnone x Hx). now split.
    + elim (Hnone y Hy). now split.
    + reflexivity.
  - destruct (redirect_url_store clk c request db) as [->| ->]; [exact Hone|].
    now apply (one_active_per_url_update (code_is c) set_clicks_plus_1 db).
  - destruct (delete_link_store c db) as [->| ->]; [exact Hone|].
    apply (one_active_per_url_update (code_is c) set_is_active_0 db);
      try assumption; try reflexivity.
    intros r H. discriminate H.
Qed.

Lemma one_active_per_url_serve_all (calls : list api_call) (db : database) :
  one_active_per_url db -> one_active_per_url (serve_all db calls).
Proof.
  revert db. induction calls as [|call calls IH]; intros db H; [exact H|].
  apply IH. now apply one_active_per_url_serve.
Qed.

(** X16: every store the service reaches from a fresh database, serving
    requests one after the other, is well formed (short codes unique and
    non-empty, stored URLs valid) and has one active link per URL. *)
Corollary service_states (calls : list api_call) :
  db_wf (serve_all empty_database calls)
  /\ one_active_per_url (serve_all empty_database calls).
Proof.
  split.
  - apply db_wf_serve_all, db_wf_empty.
  - apply one_active_per_url_serve_all. intros r r' [].
Qed.

(** *** Resolving a code *)

(** C3: for every active link whose expiration is present and strictly
    earlier than now, [redirect_url] on its code raises the 410 "expired"
    exception, which is not the 404 "not found" one, and the store it
    leaves is the store it found: no click counted, no event recorded. *)
Theorem redirect_url_expired (clk : clock) (request : Request)
    (db : database) (r : Urls.row) (e : Z) :
  db_wf db -> In r (urls db) -> Urls.is_active r = true ->
  Urls.expires_at r = Some e -> e < datetime_now clk ->
  redirect_url clk (Urls.short_code r) request db
  = (Raise (HTTPException 410 "Short URL has expired"), db)
  /\ HTTPException 410 "Short URL has expired"
     <> HTTPException 404 "Short URL not found".
Proof.
  intros (Hnd & _) Hin Hact Hexp Hlt. split; [|discriminate].
  rewrite redirect_url_eq, select_active_by_code, Hact by assumption.
  cbn [fetchone hd_error]. cbv zeta. rewrite Hexp.
  now replace (e <? datetime_now clk) with true by (symmetry; lia).
Qed.

(** C4: for every code that no link carries, and for every code whose link
    is deactivated, [redirect_url] raises the 404 "not found" exception and
    leaves the store as it found it. *)
Theorem redirect_url_not_found (clk : clock) (request : Request)
    (db : database) (c : string) :
  (forall r, In r (urls db) -> Urls.short_code r <> c)
  \/ (db_wf db /\ exists r, In r (urls db) /\ Urls.short_code r = c
                            /\ Urls.is_active r = false) ->
  redirect_url clk c request db
  = (Raise (HTTPException 404 "Short URL not found"), db).
Proof.
  intros [Hnone|((Hnd & _) & r & Hin & <- & Hact)].
  - rewrite redirect_url_eq, filter_none; [reflexivity|].
    intros r Hr. unfold code_is_active. apply andb_false_iff. left.
    apply String.eqb_neq. now apply Hnone.
  - now rewrite redirect_url_eq, select_active_by_code, Hact.
Qed.

(** *** Deactivating a link *)

Lemma set_is_active_0_inactive (r : Urls.row) :
  Urls.is_active r = false -> set_is_active_0 r = r.
Proof. destruct r. cbn. now intros ->. Qed.

Lemma with_deactivated_inactive (c : string) (db : database) :
  (forall r, In r (urls db) -> Urls.short_code r = c ->
             Urls.is_active r = false) ->
  with_deactivated c db = db.
Proof.
  intros H. destruct db as [rows us an ans]. unfold with_deactivated.
  cbn [urls urls_seq analytics analytics_seq] in *. f_equal.
  rewrite <- (map_id rows) at 2. apply map_ext_in. intros r Hr.
  destruct (code_is c r) eqn:Hc; [|reflexivity].
  apply set_is_active_0_inactive, H; [exact Hr|now apply code_is_true].
Qed.

(** C10: deactivating is idempotent.  On a code whose link is already
    inactive [delete_link] still matches the row and reports success, and
    the store after the call is the store before it; it raises the 404 "not
    found" exception exactly when no row carries the code. *)
Theorem delete_link_idempotent (c : string) (db : database) :
  (forall r, db_wf db -> In r (urls db) -> Urls.short_code r = c ->
             Urls.is_active r = false ->
             delete_link c db = (Return "Link deactivated successfully", db))
  /\ (fst (delete_link c db) = Raise (HTTPException 404 "Short URL not found")
      <-> forall r, In r (urls db) -> Urls.short_code r <> c).
Proof.
  split.
  - intros r (Hnd & _) Hin <- Hact. rewrite delete_link_eq.
    rewrite select_by_code by assumption. cbn [List.length Z.of_nat Z.eqb].
    f_equal. apply with_deactivated_inactive. intros r' Hr' Hc.
    assert (Hone : In r' (filter (code_is (Urls.short_code r)) (urls db)))
      by (apply filter_In; split; [assumption|now apply code_is_true]).
    rewrite select_by_code in Hone by assumption.
    destruct Hone as [<-|[]]. exact Hact.
  - rewrite delete_link_eq, <- rowcount_zero.
    destruct (Z.of_nat (List.length (filter (code_is c) (urls db))) =? 0);
      cbn [fst]; split; intros H; (reflexivity || discriminate).
Qed.

(** *** Shortening a URL that is already in the store *)

(** C2: in every state that holds an active link for a URL, [shorten_url]
    called with that URL (without a custom code, and with one just as well)
    answers with an existing active link for it -- with that very link when
    it is the only one --, carrying its id, code and click count, and leaves
    the store unchanged: no row is added and no counter moves. *)
Theorem shorten_url_existing_is_a_read (fuel : nat) (clk : clock)
    (rand : nat -> nat) (custom : option string) (days : option Z)
    (db : database) (r : Urls.row) :
  db_wf db -> In r (urls db) -> Urls.is_active r = true ->
  exists r0,
    In r0 (urls db) /\ active_for (Urls.original_url r) r0
    /\ ((forall r', In r' (urls db) -> active_for (Urls.original_url r) r' ->
                    r' = r) -> r0 = r)
    /\ shorten_url fuel clk rand
         {| URLCreate.original_url := Urls.original_url r;
            URLCreate.custom_code := custom;
            URLCreate.expires_in_days := days |} db
       = (Return {| URLResponse.id := Urls.id r0;
                    URLResponse.original_url := Urls.original_url r0;
                    URLResponse.short_code := Urls.short_code r0;
                    URLResponse.short_url := short_url_of (Urls.short_code r0);
                    URLResponse.created_at := SqlTimestamp (Urls.created_at r0);
                    URLResponse.clicks := Urls.clicks r0;
                    URLResponse.qr_code :=
                      generate_qr_code (short_url_of (Urls.short_code r0)) |},
          db).
Proof.
  intros (_ & _ & Hvalid) Hin Hact.
  destruct (existing_url (Urls.original_url r) db) as [r0|] eqn:He.
  - pose proof He as Hf. unfold existing_url in Hf.
    apply fetchone_filter_In in Hf. destruct Hf as [Hin0 Ha0].
    apply url_is_active_true in Ha0.
    exists r0. repeat split; try assumption; try apply Ha0.
    + intros Honly. now apply Honly.
    + apply shorten_url_reuse; [|exact He]. cbn [URLCreate.original_url].
      rewrite Forall_forall in Hvalid. now apply Hvalid.
  - exfalso. unfold existing_url in He.
    rewrite fetchone_filter_None in He. specialize (He r Hin).
    apply url_is_active_false in He. apply He. now split.
Qed.

(** C7, as the code has it: the lookup [shorten_url] reuses a link through
    yields the active link for the URL that comes first in rowid order -- the
    one inserted first, hence the oldest when creation times grow with the
    rowid -- or nothing when no active link matches; that row's id and code
    are what [shorten_url] answers with. *)
Theorem existing_url_first_active (u : string) (db : database) :
  first_active u (urls db) (existing_url u db)
  /\ (forall r, existing_url u db = Some r ->
       StronglySorted (fun a b => Urls.created_at a <= Urls.created_at b)
                      (urls db) ->
       forall r', In r' (urls db) -> active_for u r' ->
                  Urls.created_at r <= Urls.created_at r')
  /\ (forall r fuel clk rand custom days,
       existing_url u db = Some r -> is_valid_url u = true ->
       exists resp,
         shorten_url fuel clk rand
           {| URLCreate.original_url := u;
              URLCreate.custom_code := custom;
              URLCreate.expires_in_days := days |} db = (Return resp, db)
         /\ URLResponse.id resp = Urls.id r
         /\ URLResponse.short_code resp = Urls.short_code r).
Proof.
  split; [|split].
  - unfold first_active, existing_url.
    destruct (fetchone (filter (url_is_active u) (urls db))) as [r|] eqn:He.
    + apply fetchone_filter_Some in He.
      destruct He as (b & t & Hsplit & Hr & Hb).
      exists b, t. split; [exact Hsplit|]. split.
      * now apply url_is_active_true.
      * intros r' Hr'. apply url_is_active_false. now apply Hb.
    + intros r' Hr'. apply url_is_active_false.
      now apply (proj1 (fetchone_filter_None _ _) He).
  - intros r He Hsorted r' Hin' Hact'. unfold existing_url in He.
    apply fetchone_filter_Some in He.
    destruct He as (b & t & Hsplit & Hr & Hb).
    rewrite Hsplit in Hin', Hsorted.
    apply in_app_or in Hin'. destruct Hin' as [Hin'|[<-|Hin']].
    + apply url_is_active_true in Hact'. rewrite (Hb _ Hin') in Hact'.
      discriminate.
    + lia.
    + now apply (sorted_after _ _ _ _ Hsorted).
  - intros r fuel clk rand custom days He Hv.
    eexists. split; [apply shorten_url_reuse; [exact Hv|exact He]|].
    split; reflexivity.
Qed.

(** *** Shortening, then resolving *)

Lemma quote_unchanged (safe s : string) :
  string_forallb (quote_keeps safe) s = true -> quote s safe = s.
Proof.
  induction s as [|c s IH]; cbn [string_forallb quote]; [reflexivity|].
  intros H. apply andb_true_iff in H. destruct H as [Hc Hs].
  unfold quote_byte. rewrite Hc, (IH Hs). reflexivity.
Qed.

(** C1, as the code has it: when [shorten_url] answers with a code and the
    link that carries the code has no expiration, or one that is not earlier
    than the time of the redirect, then the URL was valid and [redirect_url]
    on that code answers with a 302 whose location is the URL that was
    shortened, percent-encoded: exactly that URL when it is made of letters,
    digits and the characters [_.-~:/%#?=@[]!$&'()*+,;] only. *)
Theorem shorten_url_then_redirect_url (fuel : nat) (clk clk' : clock)
    (rand : nat -> nat) (url_data : URLCreate.t) (request : Request)
    (db db1 : database) (resp : URLResponse.t) :
  db_wf db ->
  shorten_url fuel clk rand url_data db = (Return resp, db1) ->
  (forall r e, In r (urls db1) ->
               Urls.short_code r = URLResponse.short_code resp ->
               Urls.expires_at r = Some e -> datetime_now clk' <= e) ->
  is_valid_url (URLCreate.original_url url_data) = true
  /\ redirect_url clk' (URLResponse.short_code resp) request db1
     = (Return {| location :=
                    quote (URLCreate.original_url url_data) redirect_safe;
                  status_code := 302 |},
        with_click clk' (URLResponse.short_code resp) request db1)
  /\ (string_forallb (quote_keeps redirect_safe)
                     (URLCreate.original_url url_data) = true ->
      quote (URLCreate.original_url url_data) redirect_safe
      = URLCreate.original_url url_data).
Proof.
  intros Hwf Hs Hfresh.
  destruct (is_valid_url (URLCreate.original_url url_data)) eqn:Hv.
  2: now rewrite shorten_url_invalid in Hs.
  split; [reflexivity|]. split; [|apply quote_unchanged].
  assert (Hlive : forall u,
            fetchone (filter (code_is_active (URLResponse.short_code resp))
                             (urls db1)) = Some u ->
            Urls.original_url u = URLCreate.original_url url_data ->
            redirect_url clk' (URLResponse.short_code resp) request db1
            = (Return {| location :=
                           quote (URLCreate.original_url url_data)
                                 redirect_safe;
                         status_code := 302 |},
               with_click clk' (URLResponse.short_code resp) request db1)).
  { intros u Hu Hurl. rewrite redirect_url_eq, Hu. cbv zeta. rewrite Hurl.
    unfold redirect_response.
    destruct (Urls.expires_at u) as [e|] eqn:He; [|reflexivity].
    apply fetchone_filter_In in Hu. destruct Hu as [Hin Hc].
    unfold code_is_active in Hc. apply andb_true_iff in Hc.
    destruct Hc as [Hc _]. apply String.eqb_eq in Hc.
    specialize (Hfresh u e Hin Hc He).
    now replace (e <? datetime_now clk') with false by (symmetry; lia). }
  destruct (existing_url (URLCreate.original_url url_data) db) as [r0|] eqn:He.
  - rewrite (shorten_url_reuse _ _ _ _ _ _ Hv He) in Hs.
    injection Hs as <- <-. cbn [URLResponse.short_code] in *.
    unfold existing_url in He. apply fetchone_filter_In in He.
    destruct He as [Hin Hact]. apply url_is_active_true in Hact.
    destruct Hact as [Hurl Hact]. destruct Hwf as (Hnd & _).
    apply (Hlive r0); [|exact Hurl].
    now rewrite select_active_by_code, Hact.
  - pose proof (shorten_url_new _ _ _ _ _ _ _ Hv He Hs) as H.
    destruct H as (e & Hfree & _ & _ & _ & Hdb & _).
    apply (Hlive (inserted_row clk db (URLCreate.original_url url_data)
                               (URLResponse.short_code resp) e));
      [|reflexivity].
    rewrite Hdb. unfold with_inserted_row. cbn [urls].
    rewrite filter_app, filter_none.
    + cbn [filter]. unfold code_is_active, inserted_row.
      cbn [Urls.short_code Urls.is_active]. now rewrite String.eqb_refl.
    + intros r Hr. unfold code_is_active. apply andb_false_iff. left.
      apply String.eqb_neq. now apply Hfree.
Qed.

(** *** Custom codes *)

(** C5, as the code has it: a call with a valid URL that has no active link,
    and with a custom code that some link -- active or not -- already
    carries, raises the 400 "custom code already exists" exception and
    leaves the store as it found it. *)
Theorem shorten_url_custom_code_conflict (fuel : nat) (clk : clock)
    (rand : nat -> nat) (u : string) (days : option Z) (db : database)
    (r : Urls.row) :
  db_wf db -> is_valid_url u = true ->
  (forall r', In r' (urls db) -> ~ active_for u r') ->
  In r (urls db) ->
  shorten_url fuel clk rand
    {| URLCreate.original_url := u;
       URLCreate.custom_code := Some (Urls.short_code r);
       URLCreate.expires_in_days := days |} db
  = (Raise (HTTPException 400 "Custom code already exists"), db).
Proof.
  intros (_ & Hne & _) Hv Hnone Hin.
  rewrite Forall_forall in Hne. specialize (Hne r Hin).
  unfold shorten_url. cbn [URLCreate.original_url URLCreate.custom_code].
  rewrite Hv. cbn [negb].
  unfold get_db_connection, bind at 1. unfold select_urls at 1. cbn [working].
  replace (fetchone (filter (url_is_active u) (urls db))) with (@None Urls.row).
  2: { symmetry. apply fetchone_filter_None. intros x Hx.
       apply url_is_active_false. now apply Hnone. }
  destruct (Urls.short_code r) as [|a sc] eqn:Hc; [now elim Hne|].
  cbn [truthy_str negb]. unfold bind at 1. unfold bind at 1.
  unfold select_urls at 1. cbn [working].
  destruct (fetchone (filter (code_is (String a sc)) (urls db))) eqn:Hf.
  - reflexivity.
  - exfalso. rewrite fetchone_filter_None in Hf. specialize (Hf r Hin).
    apply code_is_false in Hf. now apply Hf.
Qed.

(** *** After a deactivation *)

Lemma insert_desc_In {A} (key : A -> Z) (x y : A) (l : list A) :
  In y (insert_desc key x l) <-> y = x \/ In y l.
Proof.
  clear urlparse BASE_URL generate_qr_code.
  induction l as [|a l IH]; cbn [insert_desc In].
  - intuition congruence.
  - destruct (key a <=? key x); cbn [In]; [intuition congruence|].
    rewrite IH. intuition congruence.
Qed.

Lemma order_by_desc_In {A} (key : A -> Z) (y : A) (l : list A) :
  In y (order_by_desc key l) <-> In y l.
Proof.
  unfold order_by_desc. induction l as [|a l IH]; cbn [fold_right];
    [reflexivity|].
  rewrite insert_desc_In, IH. cbn [In].
  clear urlparse BASE_URL generate_qr_code. intuition congruence.
Qed.



Lemma get_all_links_eq (db : database) :
  get_all_links db
  = (Return (map link_info_of
               (order_by_desc Urls.created_at
                              (filter Urls.is_active (urls db)))), db).
Proof. reflexivity. Qed.

Lemma get_url_analytics_eq (c : string) (db : database) :
  get_url_analytics c db =
  match fetchone (filter (code_is c) (urls db)) with
  | None => (Raise (HTTPException 404 "Short URL not found"), db)
  | Some u =>
      (Return ({| ui_original_url := Urls.original_url u;
                  ui_short_code := Urls.short_code u;
                  ui_created_at := Urls.created_at u;
                  ui_total_clicks := Urls.clicks u |},
               map click_info_of
                 (order_by_desc Analytics.clicked_at
                                (filter (click_of c) (analytics db)))), db)
  end.
Proof.
  unfold get_url_analytics, get_db_connection, bind, select_urls.
  cbn [working]. now destruct (fetchone (filter (code_is c) (urls db))).
Qed.

Lemma retired_with_deactivated (c : string) (db : database) (r : Urls.row) :
  In r (urls db) -> Urls.short_code r = c -> retired c (with_deactivated c db).
Proof.
  intros Hin Hc. unfold retired, with_deactivated. cbn [urls]. split.
  - exists (set_is_active_0 r). split; [|exact Hc].
    apply in_map_iff. exists r. split; [|exact Hin].
    now replace (code_is c r) with true by (symmetry; now apply code_is_true).
  - intros r' Hin' Hc'. apply in_map_iff in Hin'.
    destruct Hin' as (x & <- & Hx).
    destruct (code_is c x) eqn:E; [reflexivity|].
    apply code_is_false in E. now elim E.
Qed.

Lemma retired_update (c : string) (p : Urls.row -> bool)
    (set : Urls.row -> Urls.row) (db db' : database) :
  (forall r, Urls.short_code (set r) = Urls.short_code r) ->
  (forall r, Urls.is_active r = false -> Urls.is_active (set r) = false) ->
  urls db' = map (fun r => if p r then set r else r) (urls db) ->
  retired c db -> retired c db'.
Proof.
  intros Hcode Hact Hrows ((r & Hin & Hc) & Hdead). unfold retired.
  rewrite Hrows. split.
  - exists (if p r then set r else r). split.
    + apply in_map_iff. now exists r.
    + destruct (p r); [now rewrite Hcode|exact Hc].
  - intros r' Hin' Hc'. apply in_map_iff in Hin'.
    destruct Hin' as (x & <- & Hx). destruct (p x).
    + rewrite Hcode in Hc'. apply Hact. now apply Hdead.
    + now apply Hdead.
Qed.

Lemma retired_serve (c : string) (db : database) (call : api_call) :
  retired c db -> retired c (serve db call).
Proof.
  intros Hret. destruct call as [fuel clk rand url_data|clk c' request|c'];
    cbn [serve].
  - destruct (shorten_url_store fuel clk rand url_data db)
      as [->|(sc & e & Hfree & _ & _ & _ & ->)]; [exact Hret|].
    destruct Hret as ((r & Hin & Hc) & Hdead). unfold retired.
    cbn [with_inserted_row urls]. split.
    + exists r. split; [apply in_or_app; now left|exact Hc].
    + intros r' Hin' Hc'. apply in_app_or in Hin'.
      destruct Hin' as [Hin'|[<-|[]]]; [now apply Hdead|].
      cbn [inserted_row Urls.short_code] in Hc'. subst sc.
      now elim (Hfree r Hin).
  - destruct (redirect_url_store clk c' request db) as [->| ->];
      [exact Hret|].
    now apply (retired_update c (code_is c') set_clicks_plus_1 db).
  - destruct (delete_link_store c' db) as [->| ->]; [exact Hret|].
    now apply (retired_update c (code_is c') set_is_active_0 db).
Qed.

Lemma retired_serve_all (c : string) (calls : list api_call) (db : database) :
  retired c db -> retired c (serve_all db calls).
Proof.
  revert db. induction calls as [|call calls IH]; intros db H; [exact H|].
  apply IH. now apply retired_serve.
Qed.

(** No request removes or rewrites a recorded click. *)
Lemma analytics_serve (db : database) (call : api_call) :
  exists more, analytics (serve db call) = analytics db ++ more.
Proof.
  destruct call as [fuel clk rand url_data|clk c' request|c']; cbn [serve].
  - destruct (shorten_url_store fuel clk rand url_data db)
      as [->|(sc & e & _ & _ & _ & _ & ->)]; exists []; now rewrite app_nil_r.
  - destruct (redirect_url_store clk c' request db) as [->| ->].
    + exists []. now rewrite app_nil_r.
    + eexists. reflexivity.
  - destruct (delete_link_store c' db) as [->| ->]; exists [];
      now rewrite app_nil_r.
Qed.

Lemma analytics_serve_all (calls : list api_call) (db : database) :
  exists more, analytics (serve_all db calls) = analytics db ++ more.
Proof.
  revert db. induction calls as [|call calls IH]; intros db.
  - exists []. cbn. now rewrite app_nil_r.
  - cbn [serve_all fold_left]. destruct (IH (serve db call)) as (m2 & H2).
    destruct (analytics_serve db call) as (m1 & H1).
    exists (m1 ++ m2). unfold serve_all in H2. now rewrite H2, H1, app_assoc.
Qed.

Lemma retired_redirect_url (clk : clock) (c : string) (request : Request)
    (db : database) :
  retired c db ->
  redirect_url clk c request db
  = (Raise (HTTPException 404 "Short URL not found"), db).
Proof.
  intros (_ & Hdead). rewrite redirect_url_eq, filter_none; [reflexivity|].
  intros r Hr. unfold code_is_active.
  destruct (String.eqb_spec (Urls.short_code r) c) as [Hc|]; [|reflexivity].
  now rewrite (Hdead r Hr Hc).
Qed.

(** C6: after [delete_link] has succeeded on an active code, and whatever
    requests are served afterwards, every [redirect_url] on the code raises
    the 404 "not found" exception, the link is not among the links
    [get_all_links] lists, and [get_url_analytics] on the code still answers
    with every click that had been recorded for it -- right after the
    deactivation with the very list it answered with before. *)
Theorem delete_link_retires (c : string) (db : database) (r : Urls.row) :
  In r (urls db) -> Urls.short_code r = c -> Urls.is_active r = true ->
  exists db1,
    delete_link c db = (Return "Link deactivated successfully", db1)
    /\ (forall info clicks,
          get_url_analytics c db = (Return (info, clicks), db) ->
          exists info',
            get_url_analytics c db1 = (Return (info', clicks), db1))
    /\ forall calls,
         let db2 := serve_all db1 calls in
         (forall clk request,
            redirect_url clk c request db2
            = (Raise (HTTPException 404 "Short URL not found"), db2))
         /\ (exists links,
               get_all_links db2 = (Return links, db2)
               /\ forall l, In l links -> li_short_code l <> c)
         /\ (exists info clicks,
               get_url_analytics c db2 = (Return (info, clicks), db2)
               /\ forall a, In a (analytics db) ->
                            Analytics.short_code a = c ->
                            In (click_info_of a) clicks).
Proof.
  intros Hin Hc Hact. exists (with_deactivated c db).
  assert (Hret : retired c (with_deactivated c db))
    by now apply (retired_with_deactivated c db r).
  split; [|split].
  - rewrite delete_link_eq.
    destruct (Z.of_nat (List.length (filter (code_is c) (urls db))) =? 0)
      eqn:E; [|reflexivity].
    rewrite rowcount_zero in E. now elim (E r Hin).
  - intros info clicks. rewrite !get_url_analytics_eq.
    destruct (fetchone (filter (code_is c) (urls db))); [|discriminate].
    intros [= _ <-].
    destruct (fetchone (filter (code_is c) (urls (with_deactivated c db))))
      eqn:E.
    + eexists. reflexivity.
    + exfalso. rewrite fetchone_filter_None in E.
      destruct Hret as ((x & Hx & Hcx) & _).
      specialize (E x Hx). apply code_is_false in E. now apply E.
  - intros calls db2.
    assert (Hret2 : retired c db2) by now apply retired_serve_all.
    split; [|split].
    + intros clk request. now apply retired_redirect_url.
    + eexists. split; [apply get_all_links_eq|].
      intros l Hl Hcl. apply in_map_iff in Hl. destruct Hl as (x & <- & Hx).
      apply order_by_desc_In, filter_In in Hx. destruct Hx as [Hx Hax].
      cbn [link_info_of li_short_code] in Hcl.
      destruct Hret2 as (_ & Hdead). rewrite (Hdead x Hx Hcl) in Hax.
      discriminate.
    + rewrite get_url_analytics_eq.
      destruct (fetchone (filter (code_is c) (urls db2))) eqn:E.
      * eexists _, _. split; [reflexivity|].
        intros a Ha Hca. apply in_map, order_by_desc_In, filter_In.
        split; [|unfold click_of; now apply String.eqb_eq].
        destruct (analytics_serve_all calls (with_deactivated c db))
          as (more & Hmore).
        fold db2 in Hmore. rewrite Hmore. apply in_or_app. now left.
      * exfalso. rewrite fetchone_filter_None in E.
        destruct Hret2 as ((x & Hx & Hcx) & _).
        specialize (E x Hx). apply code_is_false in E. now apply E.
Qed.

(** *** Daily click counts *)

Lemma timestamp_ge_date_DATE (ts d : Z) :
  timestamp_ge_date ts d = (d <=? DATE ts).
Proof.
  clear urlparse BASE_URL generate_qr_code.
  unfold timestamp_ge_date, DATE, seconds_per_day.
  destruct (d <=? ts / 86400) eqn:E;
    [apply Z.leb_le in E; apply Z.leb_le|apply Z.leb_gt in E; apply Z.leb_gt];
    Z.div_mod_to_equations; lia.
Qed.














Lemma filter_all {A} (p : A -> bool) (l : list A) :
  (forall x, In x l -> p x = true) -> filter p l = l.
Proof.
  induction l as [|a l IH]; intros H; cbn [filter]; [reflexivity|].
  rewrite (H a) by (now left). f_equal. apply IH. intros x Hx. apply H.
  now right.
Qed.

Lemma get_analytics_eq (clk : clock) (db : database) :
  get_analytics clk db
  = (Return
       {| AnalyticsResponse.total_links :=
            Z.of_nat (List.length (filter Urls.is_active (urls db)));
          AnalyticsResponse.total_clicks :=
            Z.of_nat (List.length (filter (fun _ => true) (analytics db)));
          AnalyticsResponse.today_clicks :=
            clicks_on (date_today clk) (analytics db);
          AnalyticsResponse.click_data :=
            group_count
              (map (fun a => DATE (Analytics.clicked_at a))
                   (filter (fun a =>
                              timestamp_ge_date (Analytics.clicked_at a)
                                (date_now_plus_days clk (-7)))
                           (analytics db))) |}, db).
Proof. reflexivity. Qed.


(** *** Expiration of a new link *)

(** X15: the expiration of a link [shorten_url] creates, as the code has
    it: none when [expires_in_days] is missing or 0, now plus that many days
    otherwise. *)
Lemma shorten_url_created_expiry (fuel : nat) (clk : clock)
    (rand : nat -> nat) (url_data : URLCreate.t) (db db1 : database)
    (resp : URLResponse.t) :
  existing_url (URLCreate.original_url url_data) db = None ->
  shorten_url fuel clk rand url_data db = (Return resp, db1) ->
  exists r,
    urls db1 = urls db ++ [r]
    /\ Urls.short_code r = URLResponse.short_code resp
    /\ Urls.expires_at r =
       match URLCreate.expires_in_days url_data with
       | None => None
       | Some n =>
           if n =? 0 then None
           else Some (datetime_now clk + n * microseconds_per_day)
       end.
Proof.
  intros He Hs.
  destruct (is_valid_url (URLCreate.original_url url_data)) eqn:Hv.
  2: now rewrite shorten_url_invalid in Hs.
  pose proof (shorten_url_new _ _ _ _ _ _ _ Hv He Hs) as H.
  destruct H as (e & _ & _ & _ & Hexp & -> & _).
  eexists. split; [reflexivity|]. split; [reflexivity|].
  cbn [inserted_row Urls.expires_at]. unfold expiry_computed in Hexp.
  destruct (URLCreate.expires_in_days url_data) as [n|]; [|exact Hexp].
  destruct (n =? 0); [exact Hexp|]. now destruct Hexp as (_ & _ & ->).
Qed.

(** *** The code generator *)

Lemma random_choice_alnum (draw : nat) :
  is_alnum (random_choice characters draw) = true.
Proof.
  clear urlparse BASE_URL generate_qr_code.
  assert (H : forallb is_alnum (list_ascii_of_string characters) = true)
    by reflexivity.
  rewrite forallb_forall in H. apply H. unfold random_choice.
  apply nth_In.
  change (String.length characters) with 62%nat.
  change (List.length (list_ascii_of_string characters)) with 62%nat.
  apply Nat.mod_upper_bound. discriminate.
Qed.

(** X1: [generate_short_code(length)] yields exactly [length] characters,
    each of them an ASCII letter or digit, whatever the generator draws. *)
Theorem generate_short_code_alphanumeric (length : nat) (rand : nat -> nat)
    (pos : nat) :
  String.length (generate_short_code length rand pos) = length
  /\ string_forallb is_alnum (generate_short_code length rand pos) = true.
Proof.
  split; [apply generate_short_code_length|].
  revert pos. induction length as [|n IH]; intros pos;
    cbn [generate_short_code string_forallb]; [reflexivity|].
  now rewrite random_choice_alnum, IH.
Qed.

Lemma string_forallb_generate (length : nat) (rand : nat -> nat) (pos : nat) :
  string_forallb is_alnum (generate_short_code length rand pos) = true.
Proof.
  revert pos. induction length as [|n IH]; intros pos;
    cbn [generate_short_code string_forallb]; [reflexivity|].
  now rewrite random_choice_alnum, IH.
Qed.

(** *** The client address *)

Lemma is_space_codes (c : ascii) :
  is_space c
  = existsb (Nat.eqb (nat_of_ascii c))
            [9; 10; 11; 12; 13; 28; 29; 30; 31; 32; 133; 160]%nat.
Proof.
  clear urlparse BASE_URL generate_qr_code.
  destruct c as [[] [] [] [] [] [] [] []]; reflexivity.
Qed.

Lemma is_space_true (c : ascii) :
  is_space c = true ->
  In (nat_of_ascii c) [9; 10; 11; 12; 13; 28; 29; 30; 31; 32; 133; 160]%nat.
Proof.
  rewrite is_space_codes. intros H. apply existsb_exists in H.
  destruct H as (n & Hn & E). apply Nat.eqb_eq in E. now rewrite E.
Qed.

Lemma is_space_false (c : ascii) :
  is_space c = false ->
  ~ In (nat_of_ascii c) [9; 10; 11; 12; 13; 28; 29; 30; 31; 32; 133; 160]%nat.
Proof.
  rewrite is_space_codes. intros H Hin.
  assert (Ht : existsb (Nat.eqb (nat_of_ascii c))
                 [9; 10; 11; 12; 13; 28; 29; 30; 31; 32; 133; 160]%nat = true).
  { apply existsb_exists. exists (nat_of_ascii c).
    split; [exact Hin|apply Nat.eqb_refl]. }
  congruence.
Qed.

Lemma append_assoc3 (a b c : string) :
  String.append (String.append a b) c = String.append a (String.append b c).
Proof.
  induction a as [|x a IH]; cbn [String.append]; [reflexivity|].
  now rewrite IH.
Qed.

Lemma chars_append (a b : string) (c : ascii) :
  In c (list_ascii_of_string (String.append a b))
  <-> In c (list_ascii_of_string a) \/ In c (list_ascii_of_string b).
Proof.
  clear urlparse BASE_URL generate_qr_code.
  induction a as [|x a IH]; cbn [String.append list_ascii_of_string In].
  - tauto.
  - rewrite IH. tauto.
Qed.

Lemma before_comma_split (s : string) :
  exists rest,
    s = String.append (before_comma s) rest
    /\ (rest = EmptyString \/ exists rest', rest = String ","%char rest')
    /\ forall c, In c (list_ascii_of_string (before_comma s)) ->
                 c <> ","%char.
Proof.
  induction s as [|x s IH]; cbn [before_comma].
  - exists EmptyString. split; [reflexivity|]. split; [now left|intros c []].
  - destruct (Ascii.eqb x ","%char) eqn:E.
    + apply Ascii.eqb_eq in E. subst x. exists (String ","%char s).
      split; [reflexivity|]. split; [right; now exists s|intros c []].
    + destruct IH as (rest & Hs & Hrest & Hno). exists rest.
      cbn [String.append]. split; [now rewrite <- Hs|]. split; [exact Hrest|].
      cbn [list_ascii_of_string]. intros c [<-|Hc]; [|now apply Hno].
      now apply Ascii.eqb_neq.
Qed.

Lemma lstrip_split (s : string) :
  exists pre,
    s = String.append pre (lstrip s)
    /\ (forall c, In c (list_ascii_of_string pre) -> is_space c = true)
    /\ forall c t, lstrip s = String c t -> is_space c = false.
Proof.
  induction s as [|x s IH]; cbn [lstrip].
  - exists EmptyString. split; [reflexivity|]. split; [intros c []|].
    discriminate.
  - destruct (is_space x) eqn:E.
    + destruct IH as (pre & Hs & Hpre & Hfirst). exists (String x pre).
      cbn [String.append]. split; [now rewrite <- Hs|]. split; [|exact Hfirst].
      cbn [list_ascii_of_string]. intros c [<-|Hc]; [exact E|now apply Hpre].
    + exists EmptyString. split; [reflexivity|]. split; [intros c []|].
      intros c t [= <- _]. exact E.
Qed.

Lemma rstrip_split (s : string) :
  exists post,
    s = String.append (rstrip s) post
    /\ (forall c, In c (list_ascii_of_string post) -> is_space c = true)
    /\ (forall t c, rstrip s = String.append t (String c EmptyString) ->
                    is_space c = false)
    /\ forall c t, rstrip s = String c t -> exists t', s = String c t'.
Proof.
  induction s as [|x s IH]; cbn [rstrip].
  - exists EmptyString. split; [reflexivity|]. split; [intros c []|].
    split; [|discriminate]. intros [|y t] c H; discriminate H.
  - destruct IH as (post & Hs & Hpost & Hlast & _).
    destruct (rstrip s) as [|y r] eqn:Er.
    + destruct (is_space x) eqn:E.
      * exists (String x post). cbn [String.append] in *.
        split; [now rewrite <- Hs|]. split.
        -- cbn [list_ascii_of_string]. intros c [<-|Hc]; [exact E|].
           now apply Hpost.
        -- split; [|discriminate]. intros [|z t] c H; discriminate H.
      * exists post. cbn [String.append] in *.
        split; [now rewrite <- Hs|]. split; [exact Hpost|]. split.
        -- intros [|z t] c H; cbn [String.append] in H.
           ++ injection H as <-. exact E.
           ++ injection H as _ H. destruct t; discriminate H.
        -- intros c t [= <- _]. now exists s.
    + exists post. cbn [String.append] in *.
      split; [now rewrite <- Hs|]. split; [exact Hpost|]. split.
      * intros [|z t] c H; cbn [String.append] in H; [discriminate H|].
        injection H as _ H. now apply (Hlast t c).
      * intros c t [= <- _]. now exists s.
Qed.

(** X2: the address [get_client_ip] reports.  Without an [X-Forwarded-For]
    header, or with an empty one, it is the peer's host.  With a non-empty
    header it is cut out of the header: the header is some white space, the
    address, some white space, and then either nothing or a comma and more;
    none of the three parts holds a comma, and the address neither begins
    nor ends with white space (the characters 9 to 13, 28 to 32, 133 and
    160). *)
Theorem get_client_ip_forwarded (request : Request) :
  match x_forwarded_for request with
  | None | Some EmptyString => get_client_ip request = client_host request
  | Some forwarded =>
      let space := [9; 10; 11; 12; 13; 28; 29; 30; 31; 32; 133; 160]%nat in
      let ip := get_client_ip request in
      exists before after rest,
        forwarded
        = String.append before
            (String.append ip (String.append after rest))
        /\ (rest = EmptyString \/ exists rest', rest = String ","%char rest')
        /\ (forall c, In c (list_ascii_of_string before)
                      \/ In c (list_ascii_of_string ip)
                      \/ In c (list_ascii_of_string after) ->
                      c <> ","%char)
        /\ (forall c, In c (list_ascii_of_string before)
                      \/ In c (list_ascii_of_string after) ->
                      In (nat_of_ascii c) space)
        /\ (forall c t, ip = String c t -> ~ In (nat_of_ascii c) space)
        /\ (forall t c, ip = String.append t (String c EmptyString) ->
                        ~ In (nat_of_ascii c) space)
  end.
Proof.
  unfold get_client_ip.
  destruct (x_forwarded_for request) as [[|x f]|]; cbn [truthy_str];
    [reflexivity| |reflexivity].
  cbv zeta. unfold strip.
  destruct (before_comma_split (String x f)) as (rest & Hf & Hrest & Hno).
  destruct (lstrip_split (before_comma (String x f)))
    as (before & Hb & Hbefore & Hfirst).
  destruct (rstrip_split (lstrip (before_comma (String x f))))
    as (after & Ha & Hafter & Hlast & Hkeep).
  exists before, after, rest. split; [|split; [exact Hrest|split; [|split]]].
  - rewrite Hf at 1. rewrite Hb at 1. rewrite Ha at 1.
    now rewrite !append_assoc3.
  - intros c Hc. apply Hno. rewrite Hb. apply chars_append.
    destruct Hc as [Hc|Hc]; [now left|right].
    rewrite Ha. apply chars_append. exact Hc.
  - intros c [Hc|Hc]; apply is_space_true; auto.
  - split.
    + intros c t Hip. apply is_space_false.
      destruct (Hkeep c t Hip) as (t' & Ht'). now apply (Hfirst c t').
    + intros t c Hip. apply is_space_false. now apply (Hlast t c).
Qed.

(** *** A successful redirect *)

Lemma update_other_codes (c : string) (set : Urls.row -> Urls.row)
    (rows : list Urls.row) :
  (forall r, In r rows -> Urls.short_code r <> c) ->
  map (fun r => if code_is c r then set r else r) rows = rows.
Proof.
  intros H. rewrite <- (map_id rows) at 2. apply map_ext_in. intros r Hr.
  now replace (code_is c r) with false
    by (symmetry; apply code_is_false; now apply H).
Qed.

(** X3: a redirect through the code of an active link that has not expired
    answers 302 with the link's URL, percent-encoded, as location.  In
    [urls] it replaces that link by the same row with one click more and
    leaves every other row in place; to [analytics] it appends exactly one
    row, with the next id, the code, the client address, the [User-Agent]
    and [Referer] headers (empty when missing) and the store's current
    time. *)
Theorem redirect_url_records_click (clk : clock) (request : Request)
    (db : database) (r : Urls.row) :
  db_wf db -> In r (urls db) -> Urls.is_active r = true ->
  (forall e, Urls.expires_at r = Some e -> datetime_now clk <= e) ->
  exists db',
    redirect_url clk (Urls.short_code r) request db
    = (Return {| location := quote (Urls.original_url r) redirect_safe;
                 status_code := 302 |}, db')
    /\ (exists before after,
          urls db = before ++ r :: after
          /\ urls db'
             = before ++
               {| Urls.id := Urls.id r;
                  Urls.original_url := Urls.original_url r;
                  Urls.short_code := Urls.short_code r;
                  Urls.created_at := Urls.created_at r;
                  Urls.clicks := Urls.clicks r + 1;
                  Urls.is_active := true;
                  Urls.expires_at := Urls.expires_at r |} :: after)
    /\ analytics db'
       = analytics db ++
         [ {| Analytics.id := analytics_seq db + 1;
              Analytics.short_code := Urls.short_code r;
              Analytics.ip_address := get_client_ip request;
              Analytics.user_agent :=
                match header_user_agent request with
                | Some v => v
                | None => EmptyString
                end;
              Analytics.referrer :=
                match header_referer request with
                | Some v => v
                | None => EmptyString
                end;
              Analytics.clicked_at := sqlite_now clk |} ]
    /\ urls_seq db' = urls_seq db
    /\ analytics_seq db' = analytics_seq db + 1.
Proof.
  intros (Hnd & _) Hin Hact Hexp.
  exists (with_click clk (Urls.short_code r) request db).
  split; [|split; [|now repeat split]].
  - rewrite redirect_url_eq, select_active_by_code, Hact by assumption.
    cbn [fetchone hd_error]. cbv zeta. unfold redirect_response.
    destruct (Urls.expires_at r) as [e|]; [|reflexivity].
    specialize (Hexp e eq_refl).
    now replace (e <? datetime_now clk) with false by (symmetry; lia).
  - destruct (in_split _ _ Hin) as (before & after & Hsplit).
    exists before, after. split; [exact Hsplit|].
    cbn [with_click urls]. rewrite Hsplit in Hnd |- *.
    rewrite map_app in Hnd. cbn [map] in Hnd.
    pose proof (NoDup_remove_2 _ _ _ Hnd) as Hnot.
    rewrite map_app. cbn [map].
    replace (code_is (Urls.short_code r) r) with true
      by (symmetry; now apply code_is_true).
    unfold set_clicks_plus_1. rewrite Hact.
    rewrite !update_other_codes; [reflexivity|..];
      intros x Hx E; apply Hnot, in_or_app; [right|left];
      rewrite <- E; now apply in_map.
Qed.

(** *** The listing routes *)

Lemma insert_desc_perm {A} (key : A -> Z) (x : A) (l : list A) :
  Permutation (insert_desc key x l) (x :: l).
Proof.
  induction l as [|a l IH]; cbn [insert_desc]; [reflexivity|].
  destruct (key a <=? key x); [reflexivity|].
  rewrite IH. apply perm_swap.
Qed.

Lemma order_by_desc_perm {A} (key : A -> Z) (l : list A) :
  Permutation (order_by_desc key l) l.
Proof.
  unfold order_by_desc. induction l as [|a l IH]; cbn [fold_right];
    [reflexivity|].
  rewrite insert_desc_perm. now constructor.
Qed.




(** *** Click counters and recorded clicks *)

Lemma redirect_url_store_found (clk : clock) (c : string) (request : Request)
    (db : database) :
  snd (redirect_url clk c request db) = db
  \/ (snd (redirect_url clk c request db) = with_click clk c request db
      /\ exists u, In u (urls db) /\ Urls.short_code u = c).
Proof.
  rewrite redirect_url_eq.
  destruct (fetchone (filter (code_is_active c) (urls db))) as [u|] eqn:E;
    [|now left].
  apply fetchone_filter_In in E. destruct E as [Hin Hc].
  unfold code_is_active in Hc. apply andb_true_iff in Hc.
  destruct Hc as [Hc _]. apply String.eqb_eq in Hc. cbv zeta.
  destruct (Urls.expires_at u) as [e|]; [destruct (e <? datetime_now clk)|];
    cbn [snd]; auto; right; (split; [reflexivity|now exists u]).
Qed.

Lemma clicks_consistent_serve (db : database) (call : api_call) :
  clicks_consistent db -> clicks_consistent (serve db call).
Proof.
  intros [Hcount Href].
  destruct call as [fuel clk rand url_data|clk c request|c]; cbn [serve].
  - destruct (shorten_url_store fuel clk rand url_data db)
      as [->|(sc & e & Hfree & _ & _ & _ & ->)]; [now split|].
    split; cbn [with_inserted_row urls analytics].
    + intros r Hr. apply in_app_or in Hr. destruct Hr as [Hr|[<-|[]]];
        [now apply Hcount|].
      cbn [inserted_row Urls.clicks Urls.short_code].
      rewrite filter_none; [reflexivity|].
      intros a Ha. unfold click_of. apply String.eqb_neq. intros E.
      destruct (Href a Ha) as (r & Hr & Hc). apply (Hfree r Hr). congruence.
    + intros a Ha. destruct (Href a Ha) as (r & Hr & Hc).
      exists r. split; [apply in_or_app; now left|exact Hc].
  - destruct (redirect_url_store_found clk c request db)
      as [->|[-> (u & Hu & Hcu)]]; [now split|].
    split; cbn [with_click urls analytics].
    + intros r' Hr'. apply in_map_iff in Hr'. destruct Hr' as (r & <- & Hr).
      rewrite filter_app, length_app. cbn [filter]. unfold click_of at 2.
      cbn [Analytics.short_code].
      destruct (code_is c r) eqn:E.
      * apply code_is_true in E. cbn [set_clicks_plus_1 Urls.short_code
                                       Urls.clicks].
        rewrite E, String.eqb_refl, (Hcount r Hr), E. cbn [List.length]. lia.
      * apply code_is_false in E.
        replace (c =? Urls.short_code r)%string with false
          by (symmetry; apply String.eqb_neq; congruence).
        rewrite (Hcount r Hr). cbn [List.length]. lia.
    + intros a Ha. apply in_app_or in Ha. destruct Ha as [Ha|[<-|[]]].
      * destruct (Href a Ha) as (r & Hr & Hc).
        exists (if code_is c r then set_clicks_plus_1 r else r). split.
        -- apply in_map_iff. now exists r.
        -- now destruct (code_is c r).
      * exists (if code_is c u then set_clicks_plus_1 u else u). split.
        -- apply in_map_iff. now exists u.
        -- cbn [Analytics.short_code]. now destruct (code_is c u).
  - destruct (delete_link_store c db) as [->| ->]; [now split|].
    split; cbn [with_deactivated urls analytics].
    + intros r' Hr'. apply in_map_iff in Hr'. destruct Hr' as (r & <- & Hr).
      destruct (code_is c r); [|now apply Hcount].
      cbn [set_is_active_0 Urls.short_code Urls.clicks]. now apply Hcount.
    + intros a Ha. destruct (Href a Ha) as (r & Hr & Hc).
      exists (if code_is c r then set_is_active_0 r else r). split.
      * apply in_map_iff. now exists r.
      * now destruct (code_is c r).
Qed.

Lemma clicks_consistent_serve_all (calls : list api_call) (db : database) :
  clicks_consistent db -> clicks_consistent (serve_all db calls).
Proof.
  revert db. induction calls as [|call calls IH]; intros db H; [exact H|].
  apply IH. now apply clicks_consistent_serve.
Qed.

(** X4: in every store the service reaches from a fresh database, serving
    requests one after the other, the click counter of each link equals the
    number of clicks recorded for its code and every recorded click belongs
    to a link; so the [total_clicks] that [get_url_analytics] reports is the
    length of the [clicks] list it returns. *)
Theorem clicks_match_analytics (calls : list api_call) (c : string) :
  clicks_consistent (serve_all empty_database calls)
  /\ forall info clicks,
       fst (get_url_analytics c (serve_all empty_database calls))
       = Return (info, clicks) ->
       ui_total_clicks info = Z.of_nat (List.length clicks).
Proof.
  assert (Hc : clicks_consistent (serve_all empty_database calls)).
  { apply clicks_consistent_serve_all. split; intros ? []. }
  split; [exact Hc|]. intros info clicks. rewrite get_url_analytics_eq.
  destruct (fetchone (filter (code_is c)
                             (urls (serve_all empty_database calls))))
    as [u|] eqn:E; [|discriminate].
  cbn [fst]. intros [= <- <-]. cbn [ui_total_clicks].
  apply fetchone_filter_In in E. destruct E as [Hin Hcu].
  apply code_is_true in Hcu. rewrite (proj1 Hc u Hin), Hcu, length_map.
  f_equal. symmetry. apply Permutation_length, order_by_desc_perm.
Qed.

(** *** Totals *)

Lemma sum_counts_count_into (d : Z) (g : list (Z * Z)) :
  sum_counts (count_into d g) = sum_counts g + 1.
Proof.
  induction g as [|[k n] g IH]; cbn [count_into sum_counts fold_right snd];
    [reflexivity|].
  destruct (d <? k); [|destruct (d =? k)];
    cbn [sum_counts fold_right snd]; [lia..|].
  fold (sum_counts (count_into d g)). fold (sum_counts g). lia.
Qed.

Lemma sum_counts_group_count (ds : list Z) :
  sum_counts (group_count ds) = Z.of_nat (List.length ds).
Proof.
  unfold group_count.
  assert (H : forall g,
            sum_counts (fold_left (fun groups x => count_into x groups) ds g)
            = sum_counts g + Z.of_nat (List.length ds)).
  { induction ds as [|x ds IH]; intros g; cbn [fold_left List.length].
    - lia.
    - rewrite IH, sum_counts_count_into. lia. }
  now rewrite H.
Qed.

Lemma filter_length_bound {A} (p : A -> bool) (l : list A) :
  (List.length (filter p l) <= List.length l)%nat.
Proof.
  induction l as [|a l IH]; cbn [filter List.length]; [constructor|].
  destruct (p a); cbn [List.length]; [now apply le_n_S|now apply le_S].
Qed.

(** X7: the totals of [get_analytics], which never raises and never writes.
    [total_links] counts the active links only, [total_clicks] every
    recorded click (those of deactivated links too), [today_clicks] the
    clicks whose date is the local date and is at most [total_clicks]; the
    counts of [click_data] add up to the number of clicks from seven days
    before the store's current date onwards, hence to at most
    [total_clicks], and to exactly [total_clicks] when no click is older. *)
Theorem get_analytics_totals (clk : clock) (db : database) :
  exists resp,
    get_analytics clk db = (Return resp, db)
    /\ AnalyticsResponse.total_links resp
       = Z.of_nat (List.length (filter Urls.is_active (urls db)))
    /\ AnalyticsResponse.total_clicks resp
       = Z.of_nat (List.length (analytics db))
    /\ AnalyticsResponse.today_clicks resp
       = clicks_on (date_today clk) (analytics db)
    /\ 0 <= AnalyticsResponse.today_clicks resp
         <= AnalyticsResponse.total_clicks resp
    /\ sum_counts (AnalyticsResponse.click_data resp)
       = Z.of_nat (List.length
                     (filter (fun a => DATE (sqlite_now clk) - 7
                                       <=? DATE (Analytics.clicked_at a))
                             (analytics db)))
    /\ sum_counts (AnalyticsResponse.click_data resp)
       <= AnalyticsResponse.total_clicks resp
    /\ ((forall a, In a (analytics db) ->
                   DATE (sqlite_now clk) - 7 <= DATE (Analytics.clicked_at a))
        -> sum_counts (AnalyticsResponse.click_data resp)
           = AnalyticsResponse.total_clicks resp).
Proof.
  eexists. split; [apply get_analytics_eq|].
  cbn [AnalyticsResponse.total_links AnalyticsResponse.total_clicks
       AnalyticsResponse.today_clicks AnalyticsResponse.click_data].
  assert (Hall : filter (fun _ : Analytics.row => true) (analytics db)
                 = analytics db) by (now apply filter_all).
  assert (Hwin : filter (fun a => timestamp_ge_date (Analytics.clicked_at a)
                                    (date_now_plus_days clk (-7)))
                        (analytics db)
                 = filter (fun a => DATE (sqlite_now clk) - 7
                                    <=? DATE (Analytics.clicked_at a))
                          (analytics db)).
  { apply filter_ext. intros a. rewrite timestamp_ge_date_DATE.
    unfold date_now_plus_days. f_equal; try lia. }
  rewrite Hall, sum_counts_group_count, length_map, Hwin.
  repeat split.
  - unfold clicks_on. lia.
  - unfold clicks_on. apply inj_le, filter_length_bound.
  - apply inj_le, filter_length_bound.
  - intros Hrecent. rewrite filter_all; [reflexivity|].
    intros a Ha. apply Z.leb_le. now apply Hrecent.
Qed.

(** *** Creating a link *)

Lemma expiry_outcome_in_range (clk : clock) (days : option Z) :
  expiry_in_range clk days ->
  expiry_outcome clk days = Return (expiry_value clk days).
Proof.
  clear urlparse BASE_URL generate_qr_code.
  unfold expiry_in_range, expiry_outcome, expiry_value.
  destruct days as [n|]; [|reflexivity].
  destruct (n =? 0) eqn:E; [reflexivity|]. apply Z.eqb_neq in E.
  intros [H|(H1 & H2 & H3)]; [contradiction|].
  replace (Z.abs n <=? timedelta_max_days) with true
    by (symmetry; now apply Z.leb_le).
  replace (0 <=? datetime_now clk + n * microseconds_per_day) with true
    by (symmetry; now apply Z.leb_le).
  now replace (datetime_now clk + n * microseconds_per_day <? datetime_end)
    with true by (symmetry; now apply Z.ltb_lt).
Qed.

(** Once a code is settled -- the custom one, found unused, or one the loop
    came back with -- the rest of the route is [created]. *)
Lemma shorten_url_chosen (fuel : nat) (clk : clock) (rand : nat -> nat)
    (url_data : URLCreate.t) (db : database) (sc : string) :
  is_valid_url (URLCreate.original_url url_data) = true ->
  existing_url (URLCreate.original_url url_data) db = None ->
  (if truthy_str (URLCreate.custom_code url_data)
   then URLCreate.custom_code url_data = Some sc
        /\ forall r, In r (urls db) -> Urls.short_code r <> sc
   else generate_unused_code fuel rand 0 {| committed := db; working := db |}
        = (Return sc, {| committed := db; working := db |})) ->
  shorten_url fuel clk rand url_data db
  = created clk db (URLCreate.original_url url_data) sc
            (URLCreate.expires_in_days url_data).
Proof.
  intros Hv He Hchoice. unfold shorten_url. rewrite Hv. cbn [negb].
  unfold get_db_connection, bind at 1. unfold select_urls at 1. cbn [working].
  unfold existing_url in He. rewrite He.
  set (c0 := {| committed := db; working := db |}) in *.
  set (choose := if negb (truthy_str _) then _ else _).
  set (expiry := if truthy_int _ then _ else _).
  assert (HA : choose c0 = (Return sc, c0)
               /\ forall r, In r (urls db) -> Urls.short_code r <> sc).
  { subst choose.
    destruct (truthy_str (URLCreate.custom_code url_data)) eqn:Ht;
      cbn [negb].
    - destruct Hchoice as [Hc Hfree]. rewrite Hc. split; [|exact Hfree].
      unfold bind, select_urls. subst c0. cbn [working].
      rewrite filter_none; [reflexivity|].
      intros r Hr. apply code_is_false. now apply Hfree.
    - split; [exact Hchoice|].
      apply generate_unused_code_inv in Hchoice. apply Hchoice. }
  assert (HB : expiry c0
               = (expiry_outcome clk (URLCreate.expires_in_days url_data), c0)).
  { subst expiry. unfold expiry_outcome.
    destruct (URLCreate.expires_in_days url_data) as [n|]; cbn [truthy_int];
      [|reflexivity].
    destruct (n =? 0); cbn [negb]; [reflexivity|].
    unfold bind, lift, timedelta_days, datetime_add, ret.
    destruct (Z.abs n <=? timedelta_max_days); [|reflexivity].
    now destruct ((0 <=? datetime_now clk + n * microseconds_per_day)
                  && (datetime_now clk + n * microseconds_per_day
                      <? datetime_end)). }
  destruct HA as [HA Hfree]. clearbody choose expiry.
  unfold bind at 1. rewrite HA. unfold bind at 1. rewrite HB. unfold created.
  destruct (expiry_outcome clk (URLCreate.expires_in_days url_data)) as [e| |];
    [|reflexivity..].
  unfold bind, insert_url, commit, ret. subst c0. cbn [working committed].
  replace (existsb (fun r => (Urls.short_code r =? sc)%string) (urls db))
    with false; [reflexivity|].
  symmetry. apply not_true_is_false. intros H.
  apply existsb_exists in H. destruct H as (r & Hr & Hc).
  apply String.eqb_eq in Hc. now apply (Hfree r).
Qed.

Lemma shorten_url_loop_diverges (fuel : nat) (clk : clock)
    (rand : nat -> nat) (url_data : URLCreate.t) (db : database) :
  is_valid_url (URLCreate.original_url url_data) = true ->
  existing_url (URLCreate.original_url url_data) db = None ->
  truthy_str (URLCreate.custom_code url_data) = false ->
  fst (generate_unused_code fuel rand 0 {| committed := db; working := db |})
  = Diverge ->
  shorten_url fuel clk rand url_data db = (Diverge, db).
Proof.
  intros Hv He Ht Hd. unfold shorten_url. rewrite Hv. cbn [negb].
  unfold get_db_connection, bind at 1. unfold select_urls at 1. cbn [working].
  unfold existing_url in He. rewrite He, Ht. cbn [negb].
  unfold bind at 1.
  destruct (generate_unused_code fuel rand 0
              {| committed := db; working := db |}) as [o c'] eqn:G.
  cbn [fst] in Hd. subst o. apply generate_unused_code_inv in G.
  destruct G as [-> _]. reflexivity.
Qed.

(** The loop comes back with the first drawn code that no link carries. *)
Lemma generate_unused_code_first (fuel : nat) (rand : nat -> nat) (pos : nat)
    (c c' : connection) (sc : string) :
  generate_unused_code fuel rand pos c = (Return sc, c') ->
  exists k, (k < fuel)%nat
            /\ sc = generate_short_code 6 rand (pos + 6 * k)
            /\ forall j, (j < k)%nat ->
                 exists r, In r (urls (working c))
                           /\ Urls.short_code r
                              = generate_short_code 6 rand (pos + 6 * j).
Proof.
  revert pos. induction fuel as [|fuel IH]; intros pos;
    cbn [generate_unused_code].
  - unfold lift. discriminate.
  - unfold bind, select_urls.
    destruct (fetchone (filter (code_is (generate_short_code 6 rand pos))
                               (urls (working c)))) as [r|] eqn:Hf.
    + intros H. destruct (IH _ H) as (k & Hk & Hsc & Hearlier).
      exists (S k). split; [now apply -> Nat.succ_lt_mono|]. split.
      * rewrite Hsc. f_equal. rewrite Nat.mul_succ_r.
        now rewrite (Nat.add_comm (6 * k) 6), Nat.add_assoc.
      * intros [|j] Hj.
        -- apply fetchone_filter_In in Hf. destruct Hf as [Hin Hc].
           apply code_is_true in Hc. exists r. split; [exact Hin|].
           now rewrite Nat.mul_0_r, Nat.add_0_r.
        -- destruct (Hearlier j) as (r' & Hr' & Hc');
             [now apply Nat.succ_lt_mono|].
           exists r'. split; [exact Hr'|]. rewrite Hc'. f_equal.
           rewrite Nat.mul_succ_r.
           now rewrite (Nat.add_comm (6 * j) 6), Nat.add_assoc.
    + unfold ret. intros [= <- <-]. exists 0%nat.
      split; [apply Nat.lt_0_succ|]. split.
      * now rewrite Nat.mul_0_r, Nat.add_0_r.
      * intros j Hj. now apply Nat.nlt_0_r in Hj.
Qed.


(** X9: when no custom code is given ([None] or the empty string) and
    [shorten_url] creates a link, its code is the first code drawn that no
    link carried: six characters, letters and digits only. *)
Theorem shorten_url_generated_code (fuel : nat) (clk : clock)
    (rand : nat -> nat) (url_data : URLCreate.t) (db db' : database)
    (resp : URLResponse.t) :
  truthy_str (URLCreate.custom_code url_data) = false ->
  existing_url (URLCreate.original_url url_data) db = None ->
  shorten_url fuel clk rand url_data db = (Return resp, db') ->
  String.length (URLResponse.short_code resp) = 6%nat
  /\ string_forallb is_alnum (URLResponse.short_code resp) = true
  /\ (forall r, In r (urls db) ->
                Urls.short_code r <> URLResponse.short_code resp)
  /\ exists k, (k < fuel)%nat
               /\ URLResponse.short_code resp
                  = generate_short_code 6 rand (6 * k)
               /\ forall j, (j < k)%nat ->
                    exists r, In r (urls db)
                              /\ Urls.short_code r
                                 = generate_short_code 6 rand (6 * j).
Proof.
  intros Ht He Hs.
  destruct (is_valid_url (URLCreate.original_url url_data)) eqn:Hv.
  2: now rewrite shorten_url_invalid in Hs.
  destruct (generate_unused_code fuel rand 0
              {| committed := db; working := db |}) as [o c'] eqn:G.
  pose proof (generate_unused_code_inv _ _ _ _ _ _ G) as [-> Hinv].
  destruct o as [sc|x|]; [|contradiction|].
  2: { rewrite shorten_url_loop_diverges in Hs; try assumption;
         [discriminate|now rewrite G]. }
  rewrite (shorten_url_chosen _ _ _ _ _ sc Hv He) in Hs by (now rewrite Ht).
  unfold created in Hs.
  destruct (expiry_outcome clk (URLCreate.expires_in_days url_data));
    try discriminate.
  injection Hs as <- <-. cbn [URLResponse.short_code].
  destruct Hinv as [Hfree Hlen]. cbn [working] in Hfree.
  destruct (generate_unused_code_first _ _ _ _ _ _ G) as (k & Hk & Hsc & Hj).
  repeat split; try assumption.
  - rewrite Hsc. apply string_forallb_generate.
  - exists k. cbn [working] in Hj. now repeat split.
Qed.

(** X10: the loop of [shorten_url] ends.  For a valid URL without an active
    link and without a custom code, [shorten_url] answers and stores the
    link as soon as one of the codes it gets to draw is unused (the [k]-th,
    say, with more than [k] rounds to go) and the expiration can be
    computed. *)
Theorem shorten_url_generates (fuel : nat) (clk : clock) (rand : nat -> nat)
    (url_data : URLCreate.t) (db : database) (k : nat) :
  is_valid_url (URLCreate.original_url url_data) = true ->
  existing_url (URLCreate.original_url url_data) db = None ->
  truthy_str (URLCreate.custom_code url_data) = false ->
  (k < fuel)%nat ->
  (forall r, In r (urls db) ->
             Urls.short_code r <> generate_short_code 6 rand (6 * k)) ->
  expiry_in_range clk (URLCreate.expires_in_days url_data) ->
  exists resp sc,
    shorten_url fuel clk rand url_data db
    = (Return resp,
       with_inserted_row db
         (inserted_row clk db (URLCreate.original_url url_data) sc
            (expiry_value clk (URLCreate.expires_in_days url_data))))
    /\ URLResponse.short_code resp = sc
    /\ URLResponse.id resp = urls_seq db + 1
    /\ URLResponse.clicks resp = 0.
Proof.
  intros Hv He Ht Hk Hfree Hexp.
  destruct (generate_unused_code_returns fuel rand 0 k
              {| committed := db; working := db |} Hk Hfree) as (sc & G).
  rewrite (shorten_url_chosen _ _ _ _ _ sc Hv He) by (now rewrite Ht).
  unfold created. rewrite (expiry_outcome_in_range _ _ Hexp).
  eexists _, sc. split; [reflexivity|]. now repeat split.
Qed.

(** X11: a custom code is honoured.  For a valid URL without an active link,
    a non-empty custom code that no link carries, and an expiration that can
    be computed, [shorten_url] answers with exactly that code, the next id,
    no clicks and the short URL made of the base URL, a slash and the code,
    and appends the link to the store. *)
Theorem shorten_url_custom_code_accepted (fuel : nat) (clk : clock)
    (rand : nat -> nat) (u : string) (a : ascii) (code : string)
    (days : option Z) (db : database) :
  is_valid_url u = true ->
  existing_url u db = None ->
  (forall r, In r (urls db) -> Urls.short_code r <> String a code) ->
  expiry_in_range clk days ->
  shorten_url fuel clk rand
    {| URLCreate.original_url := u;
       URLCreate.custom_code := Some (String a code);
       URLCreate.expires_in_days := days |} db
  = (Return {| URLResponse.id := urls_seq db + 1;
               URLResponse.original_url := u;
               URLResponse.short_code := String a code;
               URLResponse.short_url :=
                 String.append BASE_URL (String.append "/" (String a code));
               URLResponse.created_at := IsoFormat (datetime_now clk);
               URLResponse.clicks := 0;
               URLResponse.qr_code :=
                 generate_qr_code
                   (String.append BASE_URL
                      (String.append "/" (String a code))) |},
     {| urls := urls db ++
                [ {| Urls.id := urls_seq db + 1;
                     Urls.original_url := u;
                     Urls.short_code := String a code;
                     Urls.created_at := sqlite_now clk;
                     Urls.clicks := 0;
                     Urls.is_active := true;
                     Urls.expires_at := expiry_value clk days |} ];
        urls_seq := urls_seq db + 1;
        analytics := analytics db;
        analytics_seq := analytics_seq db |}).
Proof.
  intros Hv He Hfree Hexp.
  rewrite (shorten_url_chosen _ _ _ _ _ (String a code)); try assumption.
  - unfold created. cbn [URLCreate.expires_in_days URLCreate.original_url].
    now rewrite (expiry_outcome_in_range _ _ Hexp).
  - cbn [URLCreate.custom_code truthy_str]. now split.
Qed.

(** X12: an [expires_in_days] that [timedelta] or [datetime] cannot hold
    (not 0, and more than 999999999 days in magnitude or leading outside
    the years 1 to 9999) never yields a link: for a valid URL without an
    active link nothing is stored and nothing is answered, and when the
    custom code is unused the call ends in [OverflowError]. *)
Theorem shorten_url_expiry_overflow (fuel : nat) (clk : clock)
    (rand : nat -> nat) (u : string) (custom : option string) (n : Z)
    (db : database) :
  is_valid_url u = true ->
  existing_url u db = None ->
  n <> 0 ->
  timedelta_max_days < Z.abs n
  \/ datetime_now clk + n * microseconds_per_day < 0
  \/ datetime_end <= datetime_now clk + n * microseconds_per_day ->
  let answer :=
    shorten_url fuel clk rand
      {| URLCreate.original_url := u;
         URLCreate.custom_code := custom;
         URLCreate.expires_in_days := Some n |} db in
  snd answer = db
  /\ (forall resp, fst answer <> Return resp)
  /\ (forall a code,
        custom = Some (String a code) ->
        (forall r, In r (urls db) -> Urls.short_code r <> String a code) ->
        answer = (Raise OverflowError, db)).
Proof.
  intros Hv He Hn Hout answer.
  assert (Hraise : expiry_outcome clk (Some n) = Raise OverflowError).
  { unfold expiry_outcome.
    replace (n =? 0) with false by (symmetry; now apply Z.eqb_neq).
    destruct (Z.abs n <=? timedelta_max_days) eqn:E1; [|reflexivity].
    apply Z.leb_le in E1.
    destruct (0 <=? datetime_now clk + n * microseconds_per_day) eqn:E2;
      [|reflexivity].
    apply Z.leb_le in E2.
    destruct (datetime_now clk + n * microseconds_per_day <? datetime_end)
      eqn:E3; [|reflexivity].
    apply Z.ltb_lt in E3. exfalso. clear -Hout E1 E2 E3. lia. }
  pose (url_data := {| URLCreate.original_url := u;
                       URLCreate.custom_code := custom;
                       URLCreate.expires_in_days := Some n |}).
  assert (Hnone : forall resp, fst answer <> Return resp).
  { intros resp Hresp. subst answer. fold url_data in Hresp.
    destruct (shorten_url fuel clk rand url_data db) as [o db'] eqn:E.
    cbn [fst] in Hresp. subst o.
    pose proof (shorten_url_new fuel clk rand url_data db db' _ Hv He E) as H.
    destruct H as (e & _ & _ & _ & Hexp & _).
    cbn [url_data URLCreate.expires_in_days expiry_computed] in Hexp.
    replace (n =? 0) with false in Hexp by (symmetry; now apply Z.eqb_neq).
    clear -Hout Hexp. lia. }
  split; [|split; [exact Hnone|]].
  - subst answer. fold url_data in Hnone |- *.
    destruct (shorten_url fuel clk rand url_data db) as [o db'] eqn:E.
    pose proof (shorten_url_new fuel clk rand url_data db db' _ Hv He E) as H.
    cbn [snd]. destruct o as [resp| |]; [|exact H..].
    now elim (Hnone resp).
  - intros a code -> Hfree. subst answer.
    rewrite (shorten_url_chosen _ _ _ _ _ (String a code)); try assumption.
    + unfold created. cbn [URLCreate.expires_in_days]. now rewrite Hraise.
    + cbn [URLCreate.custom_code truthy_str]. now split.
Qed.

(** *** Ids *)

Lemma ids_next {A} (id : A -> Z) (rows : list A) (x : A) :
  map id rows = map Z.of_nat (seq 1 (List.length rows)) ->
  id x = Z.of_nat (List.length rows) + 1 ->
  map id (rows ++ [x]) = map Z.of_nat (seq 1 (List.length (rows ++ [x]))).
Proof.
  clear urlparse BASE_URL generate_qr_code.
  intros Hrows Hx. rewrite length_app, Nat.add_comm. cbn [List.length Nat.add].
  rewrite seq_S, !map_app, Hrows. cbn [map]. rewrite Hx. do 2 f_equal. lia.
Qed.

Lemma ids_dense_serve (db : database) (call : api_call) :
  ids_dense db -> ids_dense (serve db call).
Proof.
  intros (Hu & Hus & Ha & Has).
  destruct call as [fuel clk rand url_data|clk c request|c]; cbn [serve].
  - destruct (shorten_url_store fuel clk rand url_data db)
      as [->|(sc & e & _ & _ & _ & _ & ->)]; [now repeat split|].
    unfold ids_dense.
    cbn [with_inserted_row urls urls_seq analytics analytics_seq].
    repeat split; try assumption.
    + apply ids_next; [exact Hu|]. cbn [inserted_row Urls.id]. now rewrite Hus.
    + rewrite length_app, Hus. cbn [List.length]. lia.
  - destruct (redirect_url_store clk c request db) as [->| ->];
      [now repeat split|].
    unfold ids_dense. cbn [with_click urls urls_seq analytics analytics_seq].
    rewrite length_map. repeat split; try assumption.
    + now rewrite update_keeps_column.
    + apply ids_next; [exact Ha|]. cbn [Analytics.id]. now rewrite Has.
    + rewrite length_app, Has. cbn [List.length]. lia.
  - destruct (delete_link_store c db) as [->| ->]; [now repeat split|].
    unfold ids_dense.
    cbn [with_deactivated urls urls_seq analytics analytics_seq].
    rewrite length_map. repeat split; try assumption.
    now rewrite update_keeps_column.
Qed.

(** X13: served one after the other from a fresh database, requests number
    the rows of both tables 1, 2, 3, ... in the order they were inserted, so
    no two links share an id and the id [shorten_url] answers with for a new
    link is the number of links the store then holds. *)
Theorem ids_are_dense (calls : list api_call) :
  ids_dense (serve_all empty_database calls)
  /\ NoDup (map Urls.id (urls (serve_all empty_database calls))).
Proof.
  assert (H : forall db, ids_dense db -> ids_dense (serve_all db calls)).
  { induction calls as [|call calls IH]; intros db Hd; [exact Hd|].
    apply IH. now apply ids_dense_serve. }
  assert (Hd : ids_dense (serve_all empty_database calls))
    by (apply H; now repeat split).
  split; [exact Hd|]. destruct Hd as (-> & _).
  apply Finite.Injective_map_NoDup; [|apply seq_NoDup].
  intros x y. apply Nat2Z.inj.
Qed.

(** *** What requests leave of a link *)

Lemma same_link_update (p : Urls.row -> bool) (set : Urls.row -> Urls.row)
    (rows : list Urls.row) (r : Urls.row) :
  (forall x, same_link x (set x)) ->
  (forall x, Urls.clicks x <= Urls.clicks (set x)) ->
  (forall x, Urls.is_active (set x) = true -> Urls.is_active x = true) ->
  In r rows ->
  exists r', In r' (map (fun x => if p x then set x else x) rows)
             /\ same_link r r' /\ Urls.clicks r <= Urls.clicks r'
             /\ (Urls.is_active r' = true -> Urls.is_active r = true).
Proof.
  intros Hsame Hclicks Hact Hin.
  exists (if p r then set r else r). split.
  - apply in_map_iff. now exists r.
  - destruct (p r).
    + split; [apply Hsame|]. split; [apply Hclicks|apply Hact].
    + split; [now repeat split|]. split; [apply Z.le_refl|auto].
Qed.

Lemma serve_keeps_link (db : database) (call : api_call) (r : Urls.row) :
  In r (urls db) ->
  exists r', In r' (urls (serve db call))
             /\ same_link r r' /\ Urls.clicks r <= Urls.clicks r'
             /\ (Urls.is_active r' = true -> Urls.is_active r = true).
Proof.
  intros Hin.
  assert (Hsame : exists r', In r' (urls db)
                    /\ same_link r r' /\ Urls.clicks r <= Urls.clicks r'
                    /\ (Urls.is_active r' = true -> Urls.is_active r = true)).
  { exists r. split; [exact Hin|]. split; [now repeat split|].
    split; [apply Z.le_refl|auto]. }
  destruct call as [fuel clk rand url_data|clk c request|c]; cbn [serve].
  - destruct (shorten_url_store fuel clk rand url_data db)
      as [->|(sc & e & _ & _ & _ & _ & ->)]; [exact Hsame|].
    destruct Hsame as (r' & Hr' & H). exists r'.
    split; [apply in_or_app; now left|exact H].
  - destruct (redirect_url_store clk c request db) as [->| ->];
      [exact Hsame|].
    apply same_link_update; try assumption.
    + intros x. now repeat split.
    + intros x. cbn [set_clicks_plus_1 Urls.clicks]. lia.
    + intros x H. exact H.
  - destruct (delete_link_store c db) as [->| ->]; [exact Hsame|].
    apply same_link_update; try assumption.
    + intros x. now repeat split.
    + intros x. apply Z.le_refl.
    + intros x H. discriminate H.
Qed.

(** X14: no sequence of requests removes or rewrites a link or a recorded
    click.  A link of the store is still there afterwards with the same id,
    URL, code, creation time and expiration; its click counter has not gone
    down and an inactive link has not become active again; and the recorded
    clicks are still there, in place, before the ones recorded since. *)
Theorem serve_all_keeps_links (calls : list api_call) (db : database)
    (r : Urls.row) :
  In r (urls db) ->
  (exists r', In r' (urls (serve_all db calls))
              /\ same_link r r' /\ Urls.clicks r <= Urls.clicks r'
              /\ (Urls.is_active r' = true -> Urls.is_active r = true))
  /\ exists more, analytics (serve_all db calls) = analytics db ++ more.
Proof.
  intros Hin. split; [|apply analytics_serve_all].
  revert db r Hin. induction calls as [|call calls IH]; intros db r Hin.
  - exists r. split; [exact Hin|]. split; [now repeat split|].
    split; [apply Z.le_refl|auto].
  - cbn [serve_all fold_left].
    destruct (serve_keeps_link db call r Hin)
      as (r1 & Hr1 & (H1 & H2 & H3 & H4 & H5) & Hc1 & Ha1).
    destruct (IH _ _ Hr1)
      as (r2 & Hr2 & (G1 & G2 & G3 & G4 & G5) & Hc2 & Ha2).
    exists r2. split; [exact Hr2|]. split.
    + repeat split; congruence.
    + split; [lia|auto].
Qed.

(** *** Deactivating one link *)

(** X17: [delete_link] on the code of a link, whatever its state, reports
    success and replaces that link by the same row with the active flag
    cleared -- id, URL, code, creation time, clicks and expiration as they
    were; every other row of [urls] stays in place as it was, and
    [analytics] and both sequences are untouched. *)
Theorem delete_link_deactivates_one (db : database) (r : Urls.row) :
  db_wf db -> In r (urls db) ->
  exists db',
    delete_link (Urls.short_code r) db
    = (Return "Link deactivated successfully", db')
    /\ (exists before after,
          urls db = before ++ r :: after
          /\ urls db'
             = before ++
               {| Urls.id := Urls.id r;
                  Urls.original_url := Urls.original_url r;
                  Urls.short_code := Urls.short_code r;
                  Urls.created_at := Urls.created_at r;
                  Urls.clicks := Urls.clicks r;
                  Urls.is_active := false;
                  Urls.expires_at := Urls.expires_at r |} :: after)
    /\ analytics db' = analytics db
    /\ urls_seq db' = urls_seq db
    /\ analytics_seq db' = analytics_seq db.
Proof.
  intros (Hnd & _) Hin. exists (with_deactivated (Urls.short_code r) db).
  split; [|split; [|now repeat split]].
  - rewrite delete_link_eq, select_by_code by assumption. reflexivity.
  - destruct (in_split _ _ Hin) as (before & after & Hsplit).
    exists before, after. split; [exact Hsplit|].
    cbn [with_deactivated urls]. rewrite Hsplit in Hnd |- *.
    rewrite map_app in Hnd. cbn [map] in Hnd.
    pose proof (NoDup_remove_2 _ _ _ Hnd) as Hnot.
    rewrite map_app. cbn [map].
    replace (code_is (Urls.short_code r) r) with true
      by (symmetry; now apply code_is_true).
    rewrite !update_other_codes; [reflexivity|..];
      intros x Hx E; apply Hnot, in_or_app; [right|left];
      rewrite <- E; now apply in_map.
Qed.

(** *** What the routes raise *)

(** X18: [redirect_url] ends in one of three ways: a 302 whose location is
    the percent-encoded URL of an active link that carries the code, the 404
    "not found" exception or the 410 "expired" exception.  It raises 410
    only for a code that an active link with a past expiration carries, and
    whenever it raises it leaves the store as it found it. *)
Theorem redirect_url_outcomes (clk : clock) (c : string) (request : Request)
    (db : database) :
  match fst (redirect_url clk c request db) with
  | Return resp =>
      status_code resp = 302
      /\ exists u, In u (urls db) /\ Urls.short_code u = c
                   /\ Urls.is_active u = true
                   /\ location resp
                      = quote (Urls.original_url u) redirect_safe
  | Raise e =>
      snd (redirect_url clk c request db) = db
      /\ (e = HTTPException 404 "Short URL not found"
          \/ (e = HTTPException 410 "Short URL has expired"
              /\ exists u t, In u (urls db) /\ Urls.short_code u = c
                             /\ Urls.is_active u = true
                             /\ Urls.expires_at u = Some t
                             /\ t < datetime_now clk))
  | Diverge => False
  end.
Proof.
  rewrite redirect_url_eq.
  destruct (fetchone (filter (code_is_active c) (urls db))) as [u|] eqn:E;
    [|cbn [fst snd]; auto].
  apply fetchone_filter_In in E. destruct E as [Hin Hc].
  unfold code_is_active in Hc. apply andb_true_iff in Hc.
  destruct Hc as [Hc Ha]. apply String.eqb_eq in Hc. cbv zeta.
  destruct (Urls.expires_at u) as [t|] eqn:Ht;
    [destruct (t <? datetime_now clk) eqn:Hlt|];
    cbn [fst snd status_code location redirect_response].
  - split; [reflexivity|]. right. split; [reflexivity|].
    exists u, t. apply Z.ltb_lt in Hlt. now repeat split.
  - split; [reflexivity|]. now exists u.
  - split; [reflexivity|]. now exists u.
Qed.



End Service.

(** ** The properties on concrete requests

    From here on the parser is [urlsplit_basic], the base URL the default one
    and the renderer [sample_qr]. *)

Ltac solve_db_wf :=
  unfold db_wf; cbn [urls map]; repeat split;
  repeat (constructor; cbn [In]);
  try (intros H; repeat (destruct H as [H|H]; [discriminate H|]); exact H);
  try discriminate; try reflexivity.

(** The sample stores are states of the service. *)
Lemma db_wf_sample_database : db_wf urlsplit_basic sample_database.
Proof. solve_db_wf. Defined.

Lemma db_wf_expired_database : db_wf urlsplit_basic expired_database.
Proof. solve_db_wf. Defined.

(** C1, as stated, fails, in two ways.  A link shortened with
    [expires_in_days = 1] and resolved two days later is answered with 410,
    not with the URL; and a valid URL with a space in it, resolved at once,
    is answered with a location in which the space is written [%20]. *)
Lemma shorten_url_then_redirect_url_fails :
  (is_valid_url urlsplit_basic "https://example.com/page" = true
   /\ exists resp db1,
        shorten_url urlsplit_basic sample_base_url sample_qr 1 sample_clock
                    sample_rand
                    {| URLCreate.original_url := "https://example.com/page";
                       URLCreate.custom_code := Some "abc123";
                       URLCreate.expires_in_days := Some 1 |}
                    empty_database
        = (Return resp, db1)
        /\ URLResponse.short_code resp = "abc123"
        /\ redirect_url later_clock "abc123" sample_request db1
           = (Raise (HTTPException 410 "Short URL has expired"), db1))
  /\ (is_valid_url urlsplit_basic "https://example.com/a b" = true
      /\ exists resp db1 db2,
           shorten_url urlsplit_basic sample_base_url sample_qr 1
                       sample_clock sample_rand
                       {| URLCreate.original_url := "https://example.com/a b";
                          URLCreate.custom_code := Some "abc123";
                          URLCreate.expires_in_days := None |}
                       empty_database
           = (Return resp, db1)
           /\ URLResponse.short_code resp = "abc123"
           /\ redirect_url sample_clock "abc123" sample_request db1
              = (Return {| location := "https://example.com/a%20b";
                           status_code := 302 |}, db2)
           /\ "https://example.com/a%20b" <> "https://example.com/a b").
Proof.
  split.
  - split; [reflexivity|]. eexists _, _.
    split; [vm_compute; reflexivity|]. split; reflexivity.
  - split; [reflexivity|]. eexists _, _, _.
    split; [vm_compute; reflexivity|]. split; [reflexivity|].
    split; [vm_compute; reflexivity|discriminate].
Qed.

(** The same failure without any time passing in between: a URL whose only
    active link has expired is answered with that link again. *)
Lemma shorten_url_reuses_expired_link :
  exists resp,
    shorten_url urlsplit_basic sample_base_url sample_qr 1 sample_clock
                sample_rand sample_url_data expired_database
    = (Return resp, expired_database)
    /\ redirect_url sample_clock (URLResponse.short_code resp) sample_request
                    expired_database
       = (Raise (HTTPException 410 "Short URL has expired"), expired_database).
Proof. eexists. split; [vm_compute; reflexivity|reflexivity]. Qed.

(** What [quote] does to a location: the characters of a URL's syntax are
    kept, the others are written as [%XX]. *)
Example quote_location :
  quote "https://example.com/p q?x={1}&y=^#top" redirect_safe
  = "https://example.com/p%20q?x=%7B1%7D&y=%5E#top"
  /\ quote "http://[::1]:80/a_b-c.d~e/100%25?k=v;w=(1,2)*!$+'@"
           redirect_safe
     = "http://[::1]:80/a_b-c.d~e/100%25?k=v;w=(1,2)*!$+'@".
Proof. split; reflexivity. Qed.

(** C1 on the first request to an empty store, resolved at once. *)
Lemma shorten_url_then_redirect_url_witness :
  is_valid_url urlsplit_basic "https://example.com/page" = true
  /\ redirect_url sample_clock "abc123" sample_request created_database
     = (Return {| location := "https://example.com/page";
                  status_code := 302 |},
        with_click sample_clock "abc123" sample_request created_database).
Proof.
  destruct (shorten_url_then_redirect_url urlsplit_basic sample_base_url
              sample_qr 1 sample_clock sample_clock sample_rand
              sample_url_data sample_request empty_database created_database
              created_response) as (Hv & Hr & _).
  - apply db_wf_empty.
  - reflexivity.
  - intros r e [<-|[]] _ H. discriminate H.
  - split; [exact Hv|exact Hr].
Defined.

(** C2 on [sample_database], whose first link is asked for again. *)
Lemma shorten_url_existing_is_a_read_witness :
  snd (shorten_url urlsplit_basic sample_base_url sample_qr 0 sample_clock
                   sample_rand
                   {| URLCreate.original_url := "https://example.com/page";
                      URLCreate.custom_code := None;
                      URLCreate.expires_in_days := None |}
                   sample_database)
  = sample_database.
Proof.
  destruct (shorten_url_existing_is_a_read urlsplit_basic sample_base_url
              sample_qr 0 sample_clock sample_rand None None sample_database
              (sample_link 1 "https://example.com/page" "abc123"
                           (739250 * 86400) 2 true None))
    as (r0 & _ & _ & _ & H).
  - exact db_wf_sample_database.
  - left. reflexivity.
  - reflexivity.
  - cbn [sample_link Urls.original_url] in H. rewrite H. reflexivity.
Defined.

(** C3 on [expired_database]. *)
Lemma redirect_url_expired_witness :
  datetime_now sample_clock - 1 < datetime_now sample_clock
  /\ redirect_url sample_clock "abc123" sample_request expired_database
     = (Raise (HTTPException 410 "Short URL has expired"), expired_database).
Proof.
  split; [unfold sample_clock; cbn; lia|].
  apply (redirect_url_expired urlsplit_basic sample_clock sample_request
           expired_database expired_link (datetime_now sample_clock - 1)).
  - exact db_wf_expired_database.
  - left. reflexivity.
  - reflexivity.
  - reflexivity.
  - unfold sample_clock. cbn. lia.
Defined.

(** C4 on [sample_database]: a code nobody has, and a deactivated one. *)
Lemma redirect_url_not_found_witness :
  redirect_url sample_clock "nosuch" sample_request sample_database
  = (Raise (HTTPException 404 "Short URL not found"), sample_database)
  /\ redirect_url sample_clock "gone42" sample_request sample_database
     = (Raise (HTTPException 404 "Short URL not found"), sample_database).
Proof.
  split; apply (redirect_url_not_found urlsplit_basic).
  - left. intros r [<-|[<-|[]]]; discriminate.
  - right. split; [exact db_wf_sample_database|].
    eexists. split; [right; left; reflexivity|]. split; reflexivity.
Defined.

(** C5, as stated, fails: with a URL that does not validate the call is
    turned down for the URL, whatever the custom code. *)
Lemma shorten_url_custom_code_invalid_url :
  (exists r, In r (urls sample_database) /\ Urls.short_code r = "abc123")
  /\ existing_url "not a url" sample_database = None
  /\ shorten_url urlsplit_basic sample_base_url sample_qr 1 sample_clock
                 sample_rand
                 {| URLCreate.original_url := "not a url";
                    URLCreate.custom_code := Some "abc123";
                    URLCreate.expires_in_days := None |}
                 sample_database
     = (Raise (HTTPException 400 "Invalid URL format"), sample_database)
  /\ HTTPException 400 "Invalid URL format"
     <> HTTPException 400 "Custom code already exists".
Proof.
  split; [eexists; split; [left; reflexivity|reflexivity]|].
  split; [reflexivity|]. split; [reflexivity|discriminate].
Qed.

(** C5 on [sample_database]: a new URL asks for the code of the
    deactivated link. *)
Lemma shorten_url_custom_code_conflict_witness :
  shorten_url urlsplit_basic sample_base_url sample_qr 1 sample_clock
              sample_rand
              {| URLCreate.original_url := "https://example.net/new";
                 URLCreate.custom_code := Some "gone42";
                 URLCreate.expires_in_days := None |}
              sample_database
  = (Raise (HTTPException 400 "Custom code already exists"), sample_database).
Proof.
  apply (shorten_url_custom_code_conflict urlsplit_basic sample_base_url
           sample_qr 1 sample_clock sample_rand "https://example.net/new"
           None sample_database
           (sample_link 2 "https://example.org/old" "gone42"
                        (739250 * 86400 + 60) 0 false None)).
  - exact db_wf_sample_database.
  - reflexivity.
  - intros r [<-|[<-|[]]] [H _]; discriminate H.
  - right. left. reflexivity.
Defined.

(** C6 on [sample_database]: after the deactivation a redirect and a new
    shortening are served, and the code still does not resolve. *)
Lemma delete_link_retires_witness :
  exists db1,
    delete_link "abc123" sample_database
    = (Return "Link deactivated successfully", db1)
    /\ redirect_url later_clock "abc123" sample_request
         (serve_all urlsplit_basic sample_base_url sample_qr db1
            [GET_redirect sample_clock "abc123" sample_request;
             POST_shorten 1 sample_clock sample_rand sample_url_data])
       = (Raise (HTTPException 404 "Short URL not found"),
          serve_all urlsplit_basic sample_base_url sample_qr db1
            [GET_redirect sample_clock "abc123" sample_request;
             POST_shorten 1 sample_clock sample_rand sample_url_data]).
Proof.
  destruct (delete_link_retires urlsplit_basic sample_base_url sample_qr
              "abc123" sample_database
              (sample_link 1 "https://example.com/page" "abc123"
                           (739250 * 86400) 2 true None))
    as (db1 & Hdel & _ & Hlater).
  - left. reflexivity.
  - reflexivity.
  - reflexivity.
  - exists db1. split; [exact Hdel|].
    apply (Hlater [GET_redirect sample_clock "abc123" sample_request;
                   POST_shorten 1 sample_clock sample_rand sample_url_data]).
Defined.

(** C7, as stated, fails: of two active links for one URL the lookup yields
    the one created first, not the most recent one. *)
Lemma existing_url_not_most_recent :
  db_wf urlsplit_basic race_database
  /\ ~ most_recent_active "https://example.com/page" (urls race_database)
        (existing_url "https://example.com/page" race_database).
Proof.
  split; [solve_db_wf|].
  cbn. intros (_ & _ & H).
  specialize (H (sample_link 2 "https://example.com/page" "second"
                             200 0 true None)).
  cbn in H. assert (200 <= 100) by (apply H; [right; left|split]; reflexivity).
  lia.
Qed.

(** C7 on [race_database]: the link created first is the one found. *)
Lemma existing_url_first_active_witness :
  first_active "https://example.com/page" (urls race_database)
    (Some (sample_link 1 "https://example.com/page" "first1" 100 0 true None)).
Proof.
  exact (proj1 (existing_url_first_active urlsplit_basic sample_base_url
                  sample_qr "https://example.com/page" race_database)).
Defined.



(** Three clicks recorded today are one entry for today. *)
Example get_analytics_todays_clicks :
  fst (get_analytics sample_clock todays_clicks_database)
  = Return {| AnalyticsResponse.total_links := 1;
              AnalyticsResponse.total_clicks := 3;
              AnalyticsResponse.today_clicks := 3;
              AnalyticsResponse.click_data := [(739251, 3)] |}.
Proof. reflexivity. Qed.

(** The same on clicks that are ten days old: nothing is reported. *)
Example get_analytics_old_clicks :
  fst (get_analytics sample_clock old_clicks_database)
  = Return {| AnalyticsResponse.total_links := 1;
              AnalyticsResponse.total_clicks := 2;
              AnalyticsResponse.today_clicks := 0;
              AnalyticsResponse.click_data := [] |}.
Proof. reflexivity. Qed.

(** C9 on the input it fails on: [expires_in_days = 0] is given, and the
    link that is created has no expiration instead of one equal to now. *)
Theorem shorten_url_zero_days_no_expiry :
  exists resp r,
    shorten_url urlsplit_basic sample_base_url sample_qr 1 sample_clock
                sample_rand
                {| URLCreate.original_url := "https://example.com/page";
                   URLCreate.custom_code := None;
                   URLCreate.expires_in_days := Some 0 |}
                empty_database
    = (Return resp, with_inserted_row empty_database r)
    /\ Urls.short_code r = URLResponse.short_code resp
    /\ Urls.expires_at r = None
    /\ Urls.expires_at r
       <> Some (datetime_now sample_clock + 0 * microseconds_per_day).
Proof.
  eexists _, (sample_link 1 "https://example.com/page" "aaaaaa"
                          (sqlite_now sample_clock) 0 true None).
  split; [vm_compute; reflexivity|]. repeat split. discriminate.
Qed.

(** Next to it, [expires_in_days = -1] and [1] are honoured. *)
Example shorten_url_other_days :
  map Urls.expires_at
      (urls (snd (shorten_url urlsplit_basic sample_base_url sample_qr 1
                    sample_clock sample_rand
                    {| URLCreate.original_url := "https://example.com/page";
                       URLCreate.custom_code := None;
                       URLCreate.expires_in_days := Some (-1) |}
                    empty_database)))
  = [Some (datetime_now sample_clock - microseconds_per_day)]
  /\ map Urls.expires_at
         (urls (snd (shorten_url urlsplit_basic sample_base_url sample_qr 1
                       sample_clock sample_rand
                       {| URLCreate.original_url := "https://example.com/page";
                          URLCreate.custom_code := None;
                          URLCreate.expires_in_days := Some 1 |}
                       empty_database)))
     = [Some (datetime_now sample_clock + microseconds_per_day)].
Proof. split; vm_compute; reflexivity. Qed.

(** C10 on [sample_database]: the deactivated link is deactivated again. *)
Lemma delete_link_idempotent_witness :
  delete_link "gone42" sample_database
  = (Return "Link deactivated successfully", sample_database).
Proof.
  apply (proj1 (delete_link_idempotent urlsplit_basic "gone42"
                  sample_database)
           (sample_link 2 "https://example.org/old" "gone42"
                        (739250 * 86400 + 60) 0 false None)).
  - exact db_wf_sample_database.
  - right. left. reflexivity.
  - reflexivity.
  - reflexivity.
Defined.

(** X3 on [sample_database]: a redirect through the code of its active
    link. *)
Lemma redirect_url_records_click_witness :
  exists db',
    redirect_url sample_clock "abc123" sample_request sample_database
    = (Return {| location := "https://example.com/page";
                 status_code := 302 |}, db')
    /\ List.length (analytics db') = 3%nat.
Proof.
  destruct (redirect_url_records_click urlsplit_basic sample_clock
              sample_request sample_database
              (sample_link 1 "https://example.com/page" "abc123"
                           (739250 * 86400) 2 true None))
    as (db' & Hr & _ & Ha & _).
  - exact db_wf_sample_database.
  - left. reflexivity.
  - reflexivity.
  - intros e H. discriminate H.
  - exists db'. split; [exact Hr|]. rewrite Ha. reflexivity.
Defined.

(** X9 on the first request to an empty store: the code is [aaaaaa]. *)
Lemma shorten_url_generated_code_witness :
  String.length (URLResponse.short_code generated_response) = 6%nat
  /\ string_forallb is_alnum (URLResponse.short_code generated_response)
     = true.
Proof.
  destruct (shorten_url_generated_code urlsplit_basic sample_base_url
              sample_qr 1 sample_clock sample_rand plain_url_data
              empty_database generated_database generated_response)
    as (Hlen & Halnum & _).
  - reflexivity.
  - reflexivity.
  - reflexivity.
  - split; [exact Hlen|exact Halnum].
Defined.

(** X10 on the first request to an empty store, with one round of fuel. *)
Lemma shorten_url_generates_witness :
  exists resp db',
    shorten_url urlsplit_basic sample_base_url sample_qr 1 sample_clock
                sample_rand plain_url_data empty_database
    = (Return resp, db').
Proof.
  destruct (shorten_url_generates urlsplit_basic sample_base_url sample_qr 1
              sample_clock sample_rand plain_url_data empty_database 0)
    as (resp & sc & H & _).
  - reflexivity.
  - reflexivity.
  - reflexivity.
  - constructor.
  - intros r [].
  - exact I.
  - eexists _, _. exact H.
Defined.

(** X11 on the first request to an empty store, asking for [abc123]. *)
Lemma shorten_url_custom_code_accepted_witness :
  shorten_url urlsplit_basic sample_base_url sample_qr 1 sample_clock
              sample_rand sample_url_data empty_database
  = (Return created_response, created_database).
Proof.
  unfold sample_url_data.
  rewrite (shorten_url_custom_code_accepted urlsplit_basic sample_base_url
             sample_qr 1 sample_clock sample_rand "https://example.com/page"
             "a"%char "bc123" None empty_database).
  - reflexivity.
  - reflexivity.
  - reflexivity.
  - intros r [].
  - exact I.
Defined.

(** X12 on a request for an expiration a thousand million days ahead. *)
Lemma shorten_url_expiry_overflow_witness :
  shorten_url urlsplit_basic sample_base_url sample_qr 1 sample_clock
              sample_rand
              {| URLCreate.original_url := "https://example.com/page";
                 URLCreate.custom_code := Some "abc123";
                 URLCreate.expires_in_days := Some 1000000000 |}
              empty_database
  = (Raise OverflowError, empty_database).
Proof.
  assert (Hn : 1000000000 <> 0) by discriminate.
  assert (Hout : timedelta_max_days < Z.abs 1000000000
                 \/ datetime_now sample_clock
                    + 1000000000 * microseconds_per_day < 0
                 \/ datetime_end
                    <= datetime_now sample_clock
                       + 1000000000 * microseconds_per_day)
    by (left; reflexivity).
  pose proof (shorten_url_expiry_overflow urlsplit_basic sample_base_url
                sample_qr 1 sample_clock sample_rand
                "https://example.com/page" (Some "abc123") 1000000000
                empty_database eq_refl eq_refl Hn Hout) as H.
  cbv zeta in H. destruct H as (_ & _ & H).
  apply (H "a"%char "bc123"); [reflexivity|]. intros r [].
Defined.

(** X14 on [sample_database]: its first link after a redirect through it and
    a deactivation of it. *)
Lemma serve_all_keeps_links_witness :
  exists r',
    In r' (urls (serve_all urlsplit_basic sample_base_url sample_qr
                   sample_database
                   [GET_redirect sample_clock "abc123" sample_request;
                    DELETE_link "abc123"]))
    /\ Urls.short_code r' = "abc123"
    /\ 2 <= Urls.clicks r'.
Proof.
  destruct (serve_all_keeps_links urlsplit_basic sample_base_url sample_qr
              [GET_redirect sample_clock "abc123" sample_request;
               DELETE_link "abc123"]
              sample_database
              (sample_link 1 "https://example.com/page" "abc123"
                           (739250 * 86400) 2 true None))
    as ((r' & Hin & (_ & _ & Hc & _) & Hclicks & _) & _).
  - left. reflexivity.
  - exists r'. split; [exact Hin|]. split; [exact Hc|exact Hclicks].
Defined.

(** X15 on the first request to an empty store: no [expires_in_days], no
    expiration. *)
Lemma shorten_url_created_expiry_witness :
  exists r,
    urls created_database = urls empty_database ++ [r]
    /\ Urls.short_code r = "abc123"
    /\ Urls.expires_at r = None.
Proof.
  exact (shorten_url_created_expiry urlsplit_basic sample_base_url sample_qr
           1 sample_clock sample_rand sample_url_data empty_database
           created_database created_response eq_refl eq_refl).
Defined.

(** X17 on [sample_database]: its active link is deactivated. *)
Lemma delete_link_deactivates_one_witness :
  exists db',
    delete_link "abc123" sample_database
    = (Return "Link deactivated successfully", db')
    /\ analytics db' = analytics sample_database.
Proof.
  destruct (delete_link_deactivates_one urlsplit_basic sample_database
              (sample_link 1 "https://example.com/page" "abc123"
                           (739250 * 86400) 2 true None))
    as (db' & Hd & _ & Ha & _).
  - exact db_wf_sample_database.
  - left. reflexivity.
  - exists db'. split; [exact Hd|exact Ha].
Defined.
